(** * phantom-server: configuration precedence and shutdown lifecycle

    A shallow embedding of [internal/config/config.go] and of the
    configuration and shutdown portion of [main.go].

    - Go's [int] is a 64-bit signed integer; it is modelled as [Z], and
      the only place where its range matters ([strconv.Atoi], JSON
      numbers) checks it explicitly.
    - A Go [string] is a byte sequence: Rocq's [string].
    - A Go [[]string] is a [slice]: the nil slice or an allocated one.
    - A [*Config] is an [option Config], where [None] is the nil pointer.
    - [map[string]string] is a [gmap string string].
    - File system, environment file, signals and the outcome of the drain
      are inputs of the functions that observe them. *)

From Stdlib Require Import Ascii.
From stdpp Require Import base numbers strings list sorting gmap.

Local Open Scope Z_scope.

(** ** Go values used by the configuration package *)

Module Go.

(** [[]string]: [SliceNil] is the nil slice, [SliceOf l] an allocated
    slice whose elements are [l] (possibly none). *)
Inductive slice : Type :=
| SliceNil
| SliceOf (l : list string).

Definition elems (s : slice) : list string :=
  match s with
  | SliceNil => []
  | SliceOf l => l
  end.

(** [len(s)] *)
Definition len (s : slice) : nat := length (elems s).

(** [make([]string, n)]: [n] empty strings, never nil. *)
Definition make (n : nat) : slice := SliceOf (replicate n "").

(** [copy(dst, src)]: overwrites the first [min(len(dst), len(src))]
    elements of [dst] and leaves the rest; given here as the contents
    of [dst] afterwards. *)
Definition copy (dst src : slice) : slice :=
  match dst with
  | SliceNil => SliceNil
  | SliceOf d =>
      let n := Nat.min (length d) (len src) in
      SliceOf (take n (elems src) ++ drop n d)
  end.

(** Go's [error] values: a message, possibly wrapping a cause
    ([fmt.Errorf] with [%w]). *)
Inductive error : Type :=
| Err (msg : string)
| Wrap (msg : string) (cause : error).

(** 64-bit [int]. *)
Definition int_min : Z := - 2 ^ 63.
Definition int_max : Z := 2 ^ 63 - 1.
Definition in_int (z : Z) : bool := (int_min <=? z) && (z <=? int_max).

End Go.

Import Go.

(** ** [internal/config]: the data model *)

Record ServerConfig : Type := mkServerConfig {
  Port : Z;
  ShutdownTimeout : Z;
  ReadTimeout : Z;
  WriteTimeout : Z;
  AllowedOrigins : slice;
  AllowedMethods : slice;
  EnableLogging : bool
}.

Record Config : Type := mkConfig {
  Server : ServerConfig
}.

(** Field assignments [c.Server.F = v]. *)
Definition set_Port (v : Z) (c : Config) : Config :=
  let s := Server c in
  mkConfig (mkServerConfig v (ShutdownTimeout s) (ReadTimeout s)
              (WriteTimeout s) (AllowedOrigins s) (AllowedMethods s)
              (EnableLogging s)).

Definition set_ShutdownTimeout (v : Z) (c : Config) : Config :=
  let s := Server c in
  mkConfig (mkServerConfig (Port s) v (ReadTimeout s)
              (WriteTimeout s) (AllowedOrigins s) (AllowedMethods s)
              (EnableLogging s)).

Definition set_ReadTimeout (v : Z) (c : Config) : Config :=
  let s := Server c in
  mkConfig (mkServerConfig (Port s) (ShutdownTimeout s) v
              (WriteTimeout s) (AllowedOrigins s) (AllowedMethods s)
              (EnableLogging s)).

Definition set_WriteTimeout (v : Z) (c : Config) : Config :=
  let s := Server c in
  mkConfig (mkServerConfig (Port s) (ShutdownTimeout s) (ReadTimeout s)
              v (AllowedOrigins s) (AllowedMethods s)
              (EnableLogging s)).

Definition set_AllowedOrigins (v : slice) (c : Config) : Config :=
  let s := Server c in
  mkConfig (mkServerConfig (Port s) (ShutdownTimeout s) (ReadTimeout s)
              (WriteTimeout s) v (AllowedMethods s) (EnableLogging s)).

Definition set_AllowedMethods (v : slice) (c : Config) : Config :=
  let s := Server c in
  mkConfig (mkServerConfig (Port s) (ShutdownTimeout s) (ReadTimeout s)
              (WriteTimeout s) (AllowedOrigins s) v (EnableLogging s)).

Definition set_EnableLogging (v : bool) (c : Config) : Config :=
  let s := Server c in
  mkConfig (mkServerConfig (Port s) (ShutdownTimeout s) (ReadTimeout s)
              (WriteTimeout s) (AllowedOrigins s) (AllowedMethods s) v).

(** The zero value [var config Config]. *)
Definition zero_Config : Config :=
  mkConfig (mkServerConfig 0 0 0 0 SliceNil SliceNil false).

(** [GetDefaultConfig] *)
Definition GetDefaultConfig : Config :=
  mkConfig {|
    Port := 8080;
    ShutdownTimeout := 30;
    ReadTimeout := 10;
    WriteTimeout := 10;
    AllowedOrigins := SliceOf ["*"];
    AllowedMethods := SliceOf ["GET"; "POST"; "PUT"; "DELETE"; "OPTIONS"];
    EnableLogging := true
  |}.

(** ** [MergeConfigs] *)

Definition MergeConfigs (base override : option Config) : Config :=
  let base := match base with
              | None => GetDefaultConfig
              | Some b => b
              end in
  match override with
  | None => base
  | Some override =>
      let result := mkConfig {|
        Port := Port (Server base);
        ShutdownTimeout := ShutdownTimeout (Server base);
        ReadTimeout := ReadTimeout (Server base);
        WriteTimeout := WriteTimeout (Server base);
        AllowedOrigins := make (len (AllowedOrigins (Server base)));
        AllowedMethods := make (len (AllowedMethods (Server base)));
        EnableLogging := EnableLogging (Server base)
      |} in
      let result :=
        set_AllowedOrigins
          (copy (AllowedOrigins (Server result))
                (AllowedOrigins (Server base))) result in
      let result :=
        set_AllowedMethods
          (copy (AllowedMethods (Server result))
                (AllowedMethods (Server base))) result in
      let result :=
        if negb (Port (Server override) =? 0)
        then set_Port (Port (Server override)) result
        else result in
      let result :=
        if (0 <? len (AllowedOrigins (Server override)))%nat
        then
          let fresh := make (len (AllowedOrigins (Server override))) in
          set_AllowedOrigins
            (copy fresh (AllowedOrigins (Server override)))
            (set_AllowedOrigins fresh result)
        else result in
      set_EnableLogging (EnableLogging (Server override)) result
  end.

(** Value equality of two configurations: scalar fields are equal and the
    two sequences agree element by element, in order. *)
Definition value_eq (c1 c2 : Config) : Prop :=
  Port (Server c1) = Port (Server c2) /\
  ShutdownTimeout (Server c1) = ShutdownTimeout (Server c2) /\
  ReadTimeout (Server c1) = ReadTimeout (Server c2) /\
  WriteTimeout (Server c1) = WriteTimeout (Server c2) /\
  elems (AllowedOrigins (Server c1)) = elems (AllowedOrigins (Server c2)) /\
  elems (AllowedMethods (Server c1)) = elems (AllowedMethods (Server c2)) /\
  EnableLogging (Server c1) = EnableLogging (Server c2).

(** The two "present value wins" selections of the merge. *)
Definition pick_port (base override : Z) : Z :=
  if override =? 0 then base else override.

Definition pick_origins (base override : list string) : list string :=
  if (0 <? length override)%nat then override else base.

(** ** Library functions called by the loaders

    These come from Go's standard library, not from the repository; they
    are given here as far as the loaders observe them. *)

Module strconv.

Definition digit (c : ascii) : option Z :=
  let n := Z.of_N (N_of_ascii c) in
  if (48 <=? n) && (n <=? 57) then Some (n - 48) else None.

(** Value of a run of decimal digits; [None] at the first other byte. *)
Fixpoint digits (acc : Z) (s : string) : option Z :=
  match s with
  | EmptyString => Some acc
  | String c rest =>
      match digit c with
      | Some d => digits (acc * 10 + d) rest
      | None => None
      end
  end.

(** [strconv.Atoi]: an optional sign, then one or more decimal digits,
    the value within [int]. [None] stands for a non-nil [err]; callers
    in this repository only test [err == nil]. *)
Definition Atoi (s : string) : option Z :=
  match s with
  | EmptyString => None
  | String c rest =>
      let neg := Ascii.eqb c "-"%char in
      let body := if neg || Ascii.eqb c "+"%char then rest else s in
      match body with
      | EmptyString => None
      | _ =>
          match digits 0 body with
          | None => None
          | Some n =>
              let v := if neg then - n else n in
              if in_int v then Some v else None
          end
      end
  end.

(** Decimal integer literals: an optional sign, then one or more
    decimal digits and nothing else. *)
Definition decimal (s : string) : bool :=
  let all_digits body :=
    forallb (fun c => bool_decide (is_Some (digit c)))
            (String.list_ascii_of_string body) in
  match s with
  | EmptyString => false
  | String c rest =>
      let body :=
        if Ascii.eqb c "-"%char || Ascii.eqb c "+"%char then rest else s in
      match body with
      | EmptyString => false
      | _ => all_digits body
      end
  end.

(** [strconv.ParseBool] *)
Definition ParseBool (str : string) : option bool :=
  if bool_decide (str ∈ ["1"; "t"; "T"; "true"; "TRUE"; "True"])
  then Some true
  else if bool_decide (str ∈ ["0"; "f"; "F"; "false"; "FALSE"; "False"])
  then Some false
  else None.

End strconv.

Module strings.

(** [strings.Split(s, ",")]: the pieces of [s] between commas; always
    at least one piece. *)
Fixpoint Split_comma (s : string) : list string :=
  match s with
  | EmptyString => [""]
  | String c rest =>
      if Ascii.eqb c ","%char
      then "" :: Split_comma rest
      else match Split_comma rest with
           | piece :: pieces => String c piece :: pieces
           | [] => [String c ""]
           end
  end.

(** The white-space runes of [unicode.IsSpace], as UTF-8 byte
    sequences: tab, line feed, vertical tab, form feed, carriage
    return, space, U+0085, U+00A0, U+1680, U+2000..U+200A, U+2028,
    U+2029, U+202F, U+205F, U+3000. *)
Definition space_runes : list (list N) :=
  [ [9]; [10]; [11]; [12]; [13]; [32];
    [194; 133]; [194; 160];
    [225; 154; 128];
    [226; 128; 128]; [226; 128; 129]; [226; 128; 130]; [226; 128; 131];
    [226; 128; 132]; [226; 128; 133]; [226; 128; 134]; [226; 128; 135];
    [226; 128; 136]; [226; 128; 137]; [226; 128; 138];
    [226; 128; 168]; [226; 128; 169]; [226; 128; 175];
    [226; 129; 159];
    [227; 128; 128] ]%N.

Fixpoint has_prefix (p bs : list N) : bool :=
  match p, bs with
  | [], _ => true
  | _ :: _, [] => false
  | x :: p', b :: bs' => (x =? b)%N && has_prefix p' bs'
  end.

(** Width of the rune of [runes] that [bs] starts with, if any. *)
Definition leading (runes : list (list N)) (bs : list N) : option nat :=
  length <$> List.find (fun r => has_prefix r bs) runes.

(** Drops leading runes of [runes], at most [fuel] of them. *)
Fixpoint strip (runes : list (list N)) (fuel : nat) (bs : list N)
  : list N :=
  match fuel with
  | O => bs
  | S fuel' =>
      match leading runes bs with
      | Some w => strip runes fuel' (drop w bs)
      | None => bs
      end
  end.

Definition bytes (s : string) : list N :=
  N_of_ascii <$> String.list_ascii_of_string s.

Definition of_bytes (bs : list N) : string :=
  String.string_of_list_ascii (ascii_of_N <$> bs).

(** [strings.TrimSpace]: removes the white-space runes at the start,
    then those at the end. *)
Definition TrimSpace (s : string) : string :=
  let bs := bytes s in
  let left := strip space_runes (length bs) bs in
  let right :=
    strip (reverse <$> space_runes) (length left) (reverse left) in
  of_bytes (reverse right).

End strings.

(** ** The environment loader *)

(** What [godotenv.Read()] finds at [.env] in the working directory. *)
Inductive EnvFile : Type :=
| EnvAbsent
| EnvUnreadable (cause : error)
| EnvMalformed (cause : error)
| EnvVars (vars : gmap string string).

Module godotenv.

(** [godotenv.Read()]: the map of the file's assignments, or an empty
    map and the error of opening or parsing the file. *)
Definition Read (f : EnvFile) : gmap string string * option error :=
  match f with
  | EnvAbsent =>
      (∅, Some (Err "open .env: no such file or directory"))
  | EnvUnreadable cause => (∅, Some cause)
  | EnvMalformed cause => (∅, Some cause)
  | EnvVars vars => (vars, None)
  end.

End godotenv.

(** Whether reading fails because the file does not exist;
    [LoadEnvConfig] itself never asks. *)
Definition env_not_exist (f : EnvFile) : bool :=
  match f with
  | EnvAbsent => true
  | _ => false
  end.

(** [envVars[key]] followed by the test [exists && value != ""]. *)
Definition present (envVars : gmap string string) (key : string)
  : option string :=
  match envVars !! key with
  | Some v => if String.eqb v "" then None else Some v
  | None => None
  end.

(** [LoadEnvConfig] *)
Definition LoadEnvConfig (f : EnvFile) : option Config * option error :=
  let '(envVars, err) := godotenv.Read f in
  match err with
  | Some _ => (Some GetDefaultConfig, None)
  | None =>
      let config := GetDefaultConfig in
      let config :=
        match present envVars "PORT" with
        | Some portStr =>
            match strconv.Atoi portStr with
            | Some port => set_Port port config
            | None => config
            end
        | None => config
        end in
      let config :=
        match present envVars "ALLOWED_ORIGINS" with
        | Some originsStr =>
            let origins := strings.Split_comma originsStr in
            let origins := strings.TrimSpace <$> origins in
            set_AllowedOrigins (SliceOf origins) config
        | None => config
        end in
      let config :=
        match present envVars "ENABLE_LOGGING" with
        | Some loggingStr =>
            match strconv.ParseBool loggingStr with
            | Some logging => set_EnableLogging logging config
            | None => config
            end
        | None => config
        end in
      (Some config, None)
  end.

(** ** The file loader *)

(** A JSON document as a tree. [JInt] is a number written without
    fraction or exponent, [JFrac] any other number literal. Object
    members are kept in file order, duplicates included. *)
#[local] Unset Elimination Schemes.
Inductive json : Type :=
| JNull
| JBool (b : bool)
| JInt (z : Z)
| JFrac (literal : string)
| JStr (s : string)
| JArr (items : list json)
| JObj (members : list (string * json)).
#[local] Set Elimination Schemes.

(** The bytes of a file: not well-formed JSON, or a document. The JSON
    grammar itself is not modelled. *)
Inductive content : Type :=
| Malformed
| Document (doc : json).

(** A file as [os.Stat] and [os.ReadFile] see it; a path without an
    entry in the file system does not exist. *)
Inductive file : Type :=
| Unreadable (cause : error)
| Readable (data : content).

Module jsonlib.

(** Fields of [ServerConfig]. All seven are exported Go fields, so the
    decoder visits every one of them. *)
Inductive field : Type :=
| FPort | FShutdownTimeout | FReadTimeout | FWriteTimeout
| FAllowedOrigins | FAllowedMethods | FEnableLogging.

Definition fields : list field :=
  [FPort; FShutdownTimeout; FReadTimeout; FWriteTimeout;
   FAllowedOrigins; FAllowedMethods; FEnableLogging].

(** The key of a field: its [json] tag where the struct declares one,
    otherwise the Go field name. *)
Definition key_of (f : field) : string :=
  match f with
  | FPort => "port"
  | FShutdownTimeout => "ShutdownTimeout"
  | FReadTimeout => "ReadTimeout"
  | FWriteTimeout => "WriteTimeout"
  | FAllowedOrigins => "allowed_origins"
  | FAllowedMethods => "AllowedMethods"
  | FEnableLogging => "enable_logging"
  end.

Definition lower_ascii (c : ascii) : ascii :=
  let n := N_of_ascii c in
  if ((65 <=? n) && (n <=? 90))%N then ascii_of_N (n + 32) else c.

Fixpoint lower (s : string) : string :=
  match s with
  | EmptyString => EmptyString
  | String c rest => String (lower_ascii c) (lower rest)
  end.

(** A member key selects the field with exactly that key, and failing
    that a field whose key differs only in letter case ([lower] folds
    the ASCII letters). *)
Definition match_key (keys : list (string * field)) (k : string)
  : option field :=
  match List.find (fun kf => String.eqb (fst kf) k) keys with
  | Some kf => Some (snd kf)
  | None =>
      snd <$> List.find
                (fun kf => String.eqb (lower (fst kf)) (lower k)) keys
  end.

Definition server_keys : list (string * field) :=
  (fun f => (key_of f, f)) <$> fields.

(** Decoding into an [int]: [null] leaves it, an integer within range
    sets it, anything else is an error. *)
Definition into_int (j : json) (old : Z) : option Z :=
  match j with
  | JNull => Some old
  | JInt z => if in_int z then Some z else None
  | _ => None
  end.

Definition into_bool (j : json) (old : bool) : option bool :=
  match j with
  | JNull => Some old
  | JBool b => Some b
  | _ => None
  end.

Definition into_string (j : json) : option string :=
  match j with
  | JNull => Some ""
  | JStr s => Some s
  | _ => None
  end.

(** Decoding into a [[]string]: [null] gives the nil slice, an array a
    fresh slice of its strings. *)
Definition into_strings (j : json) : option slice :=
  match j with
  | JNull => Some SliceNil
  | JArr items => SliceOf <$> mapM into_string items
  | _ => None
  end.

Definition into_field (f : field) (j : json) (c : ServerConfig)
  : option ServerConfig :=
  match f with
  | FPort =>
      v ← into_int j (Port c);
      Some (Server (set_Port v (mkConfig c)))
  | FShutdownTimeout =>
      v ← into_int j (ShutdownTimeout c);
      Some (Server (set_ShutdownTimeout v (mkConfig c)))
  | FReadTimeout =>
      v ← into_int j (ReadTimeout c);
      Some (Server (set_ReadTimeout v (mkConfig c)))
  | FWriteTimeout =>
      v ← into_int j (WriteTimeout c);
      Some (Server (set_WriteTimeout v (mkConfig c)))
  | FAllowedOrigins =>
      v ← into_strings j;
      Some (Server (set_AllowedOrigins v (mkConfig c)))
  | FAllowedMethods =>
      v ← into_strings j;
      Some (Server (set_AllowedMethods v (mkConfig c)))
  | FEnableLogging =>
      v ← into_bool j (EnableLogging c);
      Some (Server (set_EnableLogging v (mkConfig c)))
  end.

(** Members are decoded in file order; unknown keys are skipped. *)
Fixpoint into_members (ms : list (string * json)) (c : ServerConfig)
  : option ServerConfig :=
  match ms with
  | [] => Some c
  | (k, j) :: rest =>
      match match_key server_keys k with
      | Some f => c' ← into_field f j c; into_members rest c'
      | None => into_members rest c
      end
  end.

Definition into_ServerConfig (j : json) (c : ServerConfig)
  : option ServerConfig :=
  match j with
  | JNull => Some c
  | JObj ms => into_members ms c
  | _ => None
  end.

(** [Config] has the single field [Server], tagged [server]. *)
Fixpoint into_Config_members (ms : list (string * json)) (c : Config)
  : option Config :=
  match ms with
  | [] => Some c
  | (k, j) :: rest =>
      if String.eqb (lower k) "server"
      then s ← into_ServerConfig j (Server c);
           into_Config_members rest (mkConfig s)
      else into_Config_members rest c
  end.




(** [json.Unmarshal(data, &config)]; [None] stands for a non-nil
    error. *)
Definition Unmarshal (data : content) (config : Config) : option Config :=
  match data with
  | Malformed => None
  | Document JNull => Some config
  | Document (JObj ms) => into_Config_members ms config
  | Document _ => None
  end.

End jsonlib.


(** [LoadConfig]. The cause wrapped by the parse error is the decoder's
    own error, whose text is not modelled. *)
Definition LoadConfig (fs : gmap string file) (path : string)
  : option Config * option error :=
  match fs !! path with
  | None => (None, Some (Err ("config file does not exist: " +:+ path)))
  | Some (Unreadable cause) =>
      (None, Some (Wrap "failed to read config file" cause))
  | Some (Readable data) =>
      match jsonlib.Unmarshal data zero_Config with
      | None =>
          (None, Some (Wrap "failed to parse JSON config"
                         (Err "invalid JSON")))
      | Some config => (Some config, None)
      end
  end.

(** ** [main.go]: configuration pipeline and shutdown *)

(** [err.Error()] *)
Fixpoint Error (e : error) : string :=
  match e with
  | Err msg => msg
  | Wrap msg cause => msg +:+ ": " +:+ Error cause
  end.

(** Lines written through the [log] package. *)
Inductive logline : Type :=
| Printf (msg : string)
| Fatalf (msg : string).

(** [loadConfiguration]; [CONFIG_PATH] is the value of the environment
    variable, empty when unset. *)
Definition loadConfiguration
    (CONFIG_PATH : string) (fs : gmap string file) (env : EnvFile)
  : (option Config * option error) * list logline :=
  let cfg := GetDefaultConfig in
  let '(cfg, log1) :=
    if negb (String.eqb CONFIG_PATH "")
    then
      match LoadConfig fs CONFIG_PATH with
      | (jsonCfg, None) => (MergeConfigs (Some cfg) jsonCfg, [])
      | (_, Some err) =>
          (cfg, [Printf ("Warning: Failed to load JSON config from "
                           +:+ CONFIG_PATH +:+ ": " +:+ Error err)])
      end
    else (cfg, []) in
  match LoadEnvConfig env with
  | (_, Some err) =>
      ((None, Some (Wrap "failed to load environment configuration" err)),
       log1)
  | (envCfg, None) =>
      ((Some (MergeConfigs (Some cfg) envCfg), None), log1)
  end.

Inductive signal : Type := SIGINT | SIGTERM.

Definition signal_name (sig : signal) : string :=
  match sig with
  | SIGINT => "interrupt"
  | SIGTERM => "terminated"
  end.

(** Which case of the [select] fires first: a value on [serverErr]
    (sent when [ListenAndServe] returns an error other than
    [http.ErrServerClosed]), or a signal. *)
Inductive selected : Type :=
| ServerErr (listen_err : error)
| Signalled (sig : signal).

(** How the drain started by [server.Shutdown(ctx)] ends: every
    connection became idle in time, the deadline of [ctx] passed first,
    or closing a listener failed. *)
Inductive drain : Type :=
| Drained
| DeadlineElapsed
| CloseFailed (cause : error).

Definition DeadlineExceeded : error := Err "context deadline exceeded".

(** [server.Shutdown(ctx)]: nil after a complete drain, the context's
    error when its deadline passes first. *)
Definition Shutdown (d : drain) : option error :=
  match d with
  | Drained => None
  | DeadlineElapsed => Some DeadlineExceeded
  | CloseFailed cause => Some cause
  end.

(** [startServerWithGracefulShutdown], from the [select] on. The line
    that the serving goroutine logs at start is not part of this log. *)
Definition startServerWithGracefulShutdown (sel : selected) (d : drain)
  : option error * list logline :=
  match sel with
  | ServerErr listen_err =>
      (Some (Wrap "server failed to start" listen_err), [])
  | Signalled sig =>
      let log1 :=
        [Printf ("Received signal " +:+ signal_name sig
                   +:+ ", initiating graceful shutdown...")] in
      match Shutdown d with
      | Some err =>
          (Some (Wrap "graceful shutdown failed" err),
           log1 ++ [Printf ("Graceful shutdown failed: " +:+ Error err)])
      | None =>
          (None, log1 ++ [Printf "Server shutdown completed successfully"])
      end
  end.

(** What the process meets while it runs. *)
Record world : Type := mkWorld {
  CONFIG_PATH : string;
  files : gmap string file;
  dotenv : EnvFile;
  first_event : selected;
  drain_result : drain
}.

(** [main]: the exit status of the process and what it logged.
    [log.Fatalf] writes its line and exits with status 1; returning from
    [main] exits with status 0. *)
Definition main (w : world) : Z * list logline :=
  match loadConfiguration (CONFIG_PATH w) (files w) (dotenv w) with
  | ((_, Some err), log1) =>
      (1, log1 ++ [Fatalf ("Failed to load configuration: " +:+ Error err)])
  | ((_, None), log1) =>
      match startServerWithGracefulShutdown
              (first_event w) (drain_result w) with
      | (Some err, log2) =>
          (1, log1 ++ log2 ++ [Fatalf ("Server failed: " +:+ Error err)])
      | (None, log2) => (0, log1 ++ log2)
      end
  end.

(** ** Writing the configuration file *)

Module utf8.

Definition cont (b : N) : bool := ((128 <=? b) && (b <=? 191))%N.

(** Width of the well-formed UTF-8 sequence that [bs] starts with, as
    [utf8.DecodeRuneInString] accepts it: no overlong form, no
    surrogate, nothing above U+10FFFF. *)
Definition width (bs : list N) : option nat :=
  match bs with
  | [] => None
  | b0 :: rest =>
      if (b0 <? 128)%N then Some 1%nat
      else if ((194 <=? b0) && (b0 <=? 223))%N then
        match rest with
        | b1 :: _ => if cont b1 then Some 2%nat else None
        | _ => None
        end
      else if ((224 <=? b0) && (b0 <=? 239))%N then
        match rest with
        | b1 :: b2 :: _ =>
            let lo := (if b0 =? 224 then 160 else 128)%N in
            let hi := (if b0 =? 237 then 159 else 191)%N in
            if ((lo <=? b1) && (b1 <=? hi))%N && cont b2
            then Some 3%nat else None
        | _ => None
        end
      else if ((240 <=? b0) && (b0 <=? 244))%N then
        match rest with
        | b1 :: b2 :: b3 :: _ =>
            let lo := (if b0 =? 240 then 144 else 128)%N in
            let hi := (if b0 =? 244 then 143 else 191)%N in
            if ((lo <=? b1) && (b1 <=? hi))%N && cont b2 && cont b3
            then Some 4%nat else None
        | _ => None
        end
      else None
  end.

(** The encoder's treatment of a string: well-formed sequences pass,
    every other byte becomes U+FFFD. *)
Fixpoint coerce_bytes (fuel : nat) (bs : list N) : list N :=
  match fuel with
  | O => []
  | S fuel' =>
      match bs with
      | [] => []
      | _ :: rest =>
          match width bs with
          | Some w => take w bs ++ coerce_bytes fuel' (drop w bs)
          | None => [239; 191; 189]%N ++ coerce_bytes fuel' rest
          end
      end
  end.

Definition coerce (s : string) : string :=
  let bs := strings.bytes s in
  strings.of_bytes (coerce_bytes (length bs) bs).

(** Strings that the encoder writes unchanged. *)
Definition valid (s : string) : bool := String.eqb (coerce s) s.

End utf8.

(** [json.MarshalIndent(config, "", "  ")], as the document it writes:
    every exported field under its key, a nil slice as [null], a nil
    [*Config] as [null]. *)
Definition marshal_strings (s : slice) : json :=
  match s with
  | SliceNil => JNull
  | SliceOf l => JArr ((fun x => JStr (utf8.coerce x)) <$> l)
  end.

Definition marshal_ServerConfig (c : ServerConfig) : json :=
  JObj [ (jsonlib.key_of jsonlib.FPort, JInt (Port c));
         (jsonlib.key_of jsonlib.FShutdownTimeout, JInt (ShutdownTimeout c));
         (jsonlib.key_of jsonlib.FReadTimeout, JInt (ReadTimeout c));
         (jsonlib.key_of jsonlib.FWriteTimeout, JInt (WriteTimeout c));
         (jsonlib.key_of jsonlib.FAllowedOrigins,
          marshal_strings (AllowedOrigins c));
         (jsonlib.key_of jsonlib.FAllowedMethods,
          marshal_strings (AllowedMethods c));
         (jsonlib.key_of jsonlib.FEnableLogging, JBool (EnableLogging c)) ].

Definition MarshalIndent (config : option Config) : json :=
  match config with
  | None => JNull
  | Some c => JObj [("server", marshal_ServerConfig (Server c))]
  end.

(** How [os.WriteFile] ends: the data is written; the file cannot be
    opened for writing; or it is opened and truncated, and writing or
    closing fails, which leaves [remains] in the file. *)
Inductive written : Type :=
| WriteOk
| OpenFailed (cause : error)
| WriteFailed (cause : error) (remains : content).

(** [os.WriteFile(path, data, 0644)]. A file that exists keeps its
    permissions, so one that could not be read still cannot. *)
Definition WriteFile
    (fs : gmap string file) (path : string) (data : json) (w : written)
  : gmap string file * option error :=
  let store (c : content) :=
    match fs !! path with
    | Some (Unreadable cause) => fs
    | _ => <[path := Readable c]> fs
    end in
  match w with
  | WriteOk => (store (Document data), None)
  | OpenFailed cause => (fs, Some cause)
  | WriteFailed cause remains => (store remains, Some cause)
  end.

(** [WriteConfig]. Marshalling a [Config] cannot fail. *)
Definition WriteConfig
    (fs : gmap string file) (path : string) (config : option Config)
    (w : written)
  : gmap string file * option error :=
  let data := MarshalIndent config in
  match WriteFile fs path data w with
  | (fs', Some err) => (fs', Some (Wrap "failed to write config file" err))
  | (fs', None) => (fs', None)
  end.

(** ** [createServer] *)

Module fmt.

Definition digit_char (d : Z) : ascii := ascii_of_N (Z.to_N (48 + d)).

(** The decimal digits of [n >= 0], most significant first; [fuel]
    bounds their number. *)
Fixpoint decimal_digits (fuel : nat) (n : Z) : string :=
  match fuel with
  | O => ""
  | S fuel' =>
      if n <? 10 then String (digit_char n) ""
      else decimal_digits fuel' (n / 10)
             +:+ String (digit_char (n mod 10)) ""
  end.

(** The verb [%d] on an [int], which has at most 19 digits. *)
Definition d (n : Z) : string :=
  if n <? 0 then String "-"%char (decimal_digits 19 (- n))
  else decimal_digits 19 n.

End fmt.

Module time.

(** [time.Duration] is an [int64] count of nanoseconds; its product
    wraps around. *)
Definition wrap64 (z : Z) : Z := (z + 2 ^ 63) mod 2 ^ 64 - 2 ^ 63.

Definition Second : Z := 1000000000.

(** [time.Duration(n) * time.Second] *)
Definition seconds (n : Z) : Z := wrap64 (n * Second).

End time.

Module http.

(** The fields of [http.Server] that [createServer] sets; durations in
    nanoseconds. The handler is kept apart. *)
Record Server : Type := mkServer {
  Addr : string;
  ReadTimeout : Z;
  WriteTimeout : Z;
  IdleTimeout : Z
}.

(** The part of [*http.Request] the handlers read. *)
Record Request : Type := mkRequest {
  Method : string;
  Path : string
}.

(** An [http.ResponseWriter] that records what it is given. [headers]
    is the map returned by [Header()]; [status] and [sent] are the
    status code and the headers as of the first [WriteHeader]; [body]
    holds the values written, in order. *)
Record ResponseWriter : Type := mkResponseWriter {
  headers : gmap string string;
  status : option Z;
  sent : gmap string string;
  body : list json
}.

Definition fresh : ResponseWriter := mkResponseWriter ∅ None ∅ [].

(** [w.Header().Set(k, v)] *)
Definition Header_Set (k v : string) (w : ResponseWriter) : ResponseWriter :=
  mkResponseWriter (<[k := v]> (headers w)) (status w) (sent w) (body w).

(** [w.WriteHeader(code)]: only the first call counts. *)
Definition WriteHeader (code : Z) (w : ResponseWriter) : ResponseWriter :=
  match status w with
  | Some _ => w
  | None => mkResponseWriter (headers w) (Some code) (headers w) (body w)
  end.

(** [w.Write] of one encoded value: sends the header with status 200
    first when none was sent. *)
Definition Write (v : json) (w : ResponseWriter) : ResponseWriter :=
  let w := WriteHeader 200 w in
  mkResponseWriter (headers w) (status w) (sent w) (body w ++ [v]).

Definition StatusOK : Z := 200.
Definition StatusNotFound : Z := 404.

(** What a handler works on: the response, the lines logged so far, and
    the wall clock as [Format("2006-01-02 15:04:05")] prints it. *)
Record exchange : Type := mkExchange {
  rw : ResponseWriter;
  logged : list logline;
  clock : string
}.

(** [http.Handler], by its [ServeHTTP]. *)
Definition Handler : Type := Request -> exchange -> exchange.

Definition on_rw (f : ResponseWriter -> ResponseWriter) (x : exchange)
  : exchange :=
  mkExchange (f (rw x)) (logged x) (clock x).

End http.

(** [createServer]: the address and the timeouts of the server. *)
Definition createServer (cfg : Config) : http.Server :=
  let addr := ":" +:+ fmt.d (Port (Server cfg)) in
  {| http.Addr := addr;
     http.ReadTimeout := time.seconds (ReadTimeout (Server cfg));
     http.WriteTimeout := time.seconds (WriteTimeout (Server cfg));
     http.IdleTimeout := 60 * time.Second |}.

(** ** [internal/middleware] *)

Module middleware.

Definition Middleware : Type := http.Handler -> http.Handler.

(** The loop of [Chain]: [i] runs from [n - 1] down to [0] and wraps
    [final] in [middlewares[i]]. *)
Fixpoint Chain_loop
    (middlewares : list Middleware) (n : nat) (final : http.Handler)
  : http.Handler :=
  match n with
  | O => final
  | S i =>
      match middlewares !! i with
      | Some m => Chain_loop middlewares i (m final)
      | None => final
      end
  end.

(** [Chain] *)
Definition Chain (middlewares : list Middleware) : Middleware :=
  fun final => Chain_loop middlewares (length middlewares) final.

(** [Logger] *)
Definition Logger (enabled : bool) : Middleware :=
  fun next r x =>
    let x :=
      if enabled
      then http.mkExchange (http.rw x)
             (http.logged x ++
                [Printf ("[" +:+ http.clock x +:+ "] "
                           +:+ http.Method r +:+ " " +:+ http.Path r)])
             (http.clock x)
      else x in
    next r x.

End middleware.

(** ** [internal/handlers] *)

Module handlers.

(** [Response]; [Data] holds a map, given by its entries with the
    values already as JSON values. *)
Record Response : Type := mkResponse {
  Status : string;
  Message : string;
  Data : option (gmap string json)
}.

(** A map is encoded with its keys in increasing byte order. *)
Definition key_le (a b : string * json) : Prop :=
  String.leb (fst a) (fst b).

Definition encode_map (m : gmap string json) : json :=
  JObj (merge_sort key_le (map_to_list m)).

(** The encoding of a [Response]: [message] and [data] are left out
    when empty. *)
Definition encode (r : Response) : json :=
  JObj ([("status", JStr (utf8.coerce (Status r)))]
        ++ (if String.eqb (Message r) "" then []
            else [("message", JStr (utf8.coerce (Message r)))])
        ++ (match Data r with
            | None => []
            | Some m => [("data", encode_map m)]
            end)).

(** [writeJSONResponse]. Encoding a [Response] into a recording writer
    does not fail, so the fallback branch is not taken. *)
Definition writeJSONResponse (statusCode : Z) (data : Response)
  : http.ResponseWriter -> http.ResponseWriter :=
  fun w =>
    let w := http.Header_Set "Content-Type" "application/json" w in
    let w := http.WriteHeader statusCode w in
    http.Write (encode data) w.

(** [Home] *)
Definition Home : http.Handler :=
  fun r =>
    let response := {|
      Status := "success";
      Message := "Welcome to the HTTP server!";
      Data := Some (<["version" := JStr "1.0.0"]>
                   (<["service" := JStr "http-server"]> ∅))
    |} in
    http.on_rw (writeJSONResponse http.StatusOK response).

(** [Health] *)
Definition Health : http.Handler :=
  fun r =>
    let response := {|
      Status := "healthy";
      Message := "Server is running";
      Data := Some (<["uptime" := JStr "running"]>
                   (<["status" := JStr "ok"]>
                   (<["checks" := JObj [("server", JStr "healthy")]]> ∅)))
    |} in
    http.on_rw (writeJSONResponse http.StatusOK response).

(** [NotFound] *)
Definition NotFound : http.Handler :=
  fun r =>
    let response := {|
      Status := "error";
      Message := "The requested resource was not found";
      Data := Some (<["path" := JStr (utf8.coerce (http.Path r))]>
                   (<["method" := JStr (utf8.coerce (http.Method r))]> ∅))
    |} in
    http.on_rw (writeJSONResponse http.StatusNotFound response).

End handlers.

(** ** [internal/routes] *)

Module routes.

(** The handler that [SetupRoutes] builds for the routes. *)
Definition routeHandler : http.Handler :=
  fun req =>
    if String.eqb (http.Path req) "/" then handlers.Home req
    else if String.eqb (http.Path req) "/health" then handlers.Health req
    else handlers.NotFound req.

(** [SetupRoutes] up to the CORS wrapper: the middleware chain applied
    to the route handler. *)
Definition chained (cfg : Config) : http.Handler :=
  let middlewareChain :=
    middleware.Chain [middleware.Logger (EnableLogging (Server cfg))] in
  middlewareChain routeHandler.

End routes.

(** A string neither starts nor ends with a white-space rune. *)
Definition trimmed (s : string) : Prop :=
  strings.leading strings.space_runes (strings.bytes s) = None /\
  strings.leading (reverse <$> strings.space_runes)
    (reverse (strings.bytes s)) = None.

(** Number of commas of a string. *)
Definition commas (s : string) : nat :=
  length (filter (fun c => c = ","%char) (String.list_ascii_of_string s)).

(** * Properties *)

(** ** Slices: allocation followed by copy *)

Lemma len_make (n : nat) : len (make n) = n.
Proof. unfold len, make; simpl. apply length_replicate. Qed.

Lemma copy_make_alloc (s : slice) :
  copy (make (len s)) s = SliceOf (elems s).
Proof.
  unfold copy, make.
  rewrite length_replicate, Nat.min_id.
  unfold len. rewrite firstn_all.
  rewrite drop_ge by (rewrite length_replicate; lia).
  now rewrite app_nil_r.
Qed.

Lemma elems_copy_make (s : slice) :
  elems (copy (make (len s)) s) = elems s.
Proof. now rewrite copy_make_alloc. Qed.

Lemma len_SliceOf_elems (s : slice) : len (SliceOf (elems s)) = len s.
Proof. reflexivity. Qed.

(** ** The merge, field by field *)

Lemma pick_port_assoc (a b c : Z) :
  pick_port (pick_port a b) c = pick_port a (pick_port b c).
Proof.
  unfold pick_port.
  destruct (Z.eqb_spec c 0) as [Ec | Ec]; [reflexivity |].
  now apply Z.eqb_neq in Ec as ->.
Qed.

Lemma pick_origins_assoc (a b c : list string) :
  pick_origins (pick_origins a b) c = pick_origins a (pick_origins b c).
Proof.
  unfold pick_origins.
  destruct c as [| x c']; [reflexivity |].
  reflexivity.
Qed.

Lemma pick_port_idem (a : Z) : pick_port a a = a.
Proof. unfold pick_port. now destruct (a =? 0). Qed.

Lemma pick_origins_idem (a : list string) : pick_origins a a = a.
Proof. unfold pick_origins. now destruct (0 <? length a)%nat. Qed.

(** The result of a merge of two non-nil operands, in closed form. *)
Lemma MergeConfigs_fields (base override : Config) :
  MergeConfigs (Some base) (Some override) =
  mkConfig {|
    Port := pick_port (Port (Server base)) (Port (Server override));
    ShutdownTimeout := ShutdownTimeout (Server base);
    ReadTimeout := ReadTimeout (Server base);
    WriteTimeout := WriteTimeout (Server base);
    AllowedOrigins :=
      SliceOf (pick_origins (elems (AllowedOrigins (Server base)))
                            (elems (AllowedOrigins (Server override))));
    AllowedMethods := SliceOf (elems (AllowedMethods (Server base)));
    EnableLogging := EnableLogging (Server override)
  |}.
Proof.
  unfold MergeConfigs, pick_port, pick_origins. cbv zeta.
  cbn [Server AllowedOrigins AllowedMethods set_AllowedOrigins
       set_AllowedMethods Port ShutdownTimeout ReadTimeout WriteTimeout
       EnableLogging].
  rewrite !copy_make_alloc. fold (len (AllowedOrigins (Server override))).
  destruct (Port (Server override) =? 0);
    destruct (0 <? len (AllowedOrigins (Server override)))%nat;
    reflexivity.
Qed.

Ltac merge_fields :=
  rewrite ?MergeConfigs_fields;
  cbn [Server Port ShutdownTimeout ReadTimeout WriteTimeout
       AllowedOrigins AllowedMethods EnableLogging elems].

(** C1. For non-nil [base] and [override], the merged configuration has
    the ShutdownTimeout, ReadTimeout and WriteTimeout of [base] and the
    AllowedMethods of [base], element by element, whatever [override]
    holds in those fields. *)
Theorem MergeConfigs_hardcoded_from_base (base override : Config) :
  let r := Server (MergeConfigs (Some base) (Some override)) in
  ShutdownTimeout r = ShutdownTimeout (Server base) /\
  ReadTimeout r = ReadTimeout (Server base) /\
  WriteTimeout r = WriteTimeout (Server base) /\
  elems (AllowedMethods r) = elems (AllowedMethods (Server base)) /\
  len (AllowedMethods r) = len (AllowedMethods (Server base)).
Proof. cbv zeta. merge_fields. repeat split. Qed.

(** The file-over-default step of the pipeline keeps the hardcoded
    fields of the default provider, whatever the loaded file says. *)
Corollary file_merge_keeps_defaults (fileCfg : Config) :
  let r := Server (MergeConfigs (Some GetDefaultConfig) (Some fileCfg)) in
  ShutdownTimeout r = 30 /\ ReadTimeout r = 10 /\ WriteTimeout r = 10 /\
  elems (AllowedMethods r) = ["GET"; "POST"; "PUT"; "DELETE"; "OPTIONS"].
Proof. cbv zeta. merge_fields. repeat split. Qed.

(** C5. For non-nil operands: a zero Port in [override] leaves the Port
    of [base]; a non-zero Port in [override] is the Port of the result. *)
Theorem MergeConfigs_Port (base override : Config) :
  let r := Server (MergeConfigs (Some base) (Some override)) in
  (Port (Server override) = 0 -> Port r = Port (Server base)) /\
  (Port (Server override) <> 0 -> Port r = Port (Server override)).
Proof.
  cbv zeta. merge_fields. unfold pick_port.
  destruct (Z.eqb_spec (Port (Server override)) 0) as [E | E];
    split; intros H; congruence.
Qed.

Lemma MergeConfigs_Port_witness :
  Port (Server (MergeConfigs (Some GetDefaultConfig) (Some zero_Config)))
  = 8080 /\
  Port (Server (MergeConfigs (Some GetDefaultConfig)
                  (Some (set_Port 3000 zero_Config)))) = 3000.
Proof.
  split.
  - apply (proj1 (MergeConfigs_Port GetDefaultConfig zero_Config)).
    reflexivity.
  - apply (proj2 (MergeConfigs_Port GetDefaultConfig
                    (set_Port 3000 zero_Config))).
    discriminate.
Defined.

(** C6. For non-nil operands: a non-empty AllowedOrigins in [override]
    is the AllowedOrigins of the result, element by element and in
    order; an empty one leaves the elements of [base]. *)
Theorem MergeConfigs_AllowedOrigins (base override : Config) :
  let r := Server (MergeConfigs (Some base) (Some override)) in
  ((0 < len (AllowedOrigins (Server override)))%nat ->
     elems (AllowedOrigins r) = elems (AllowedOrigins (Server override))) /\
  (len (AllowedOrigins (Server override)) = 0%nat ->
     elems (AllowedOrigins r) = elems (AllowedOrigins (Server base))).
Proof.
  cbv zeta. merge_fields. unfold pick_origins, len.
  destruct (Nat.ltb_spec 0 (length (elems (AllowedOrigins (Server override)))))
    as [E | E]; split; intros H; try reflexivity; lia.
Qed.

Lemma MergeConfigs_AllowedOrigins_witness :
  elems (AllowedOrigins
           (Server (MergeConfigs (Some GetDefaultConfig)
                      (Some (set_AllowedOrigins
                               (SliceOf ["http://a.com"; "http://b.com"])
                               zero_Config)))))
  = ["http://a.com"; "http://b.com"] /\
  elems (AllowedOrigins
           (Server (MergeConfigs (Some GetDefaultConfig) (Some zero_Config))))
  = ["*"].
Proof.
  split.
  - apply (proj1 (MergeConfigs_AllowedOrigins GetDefaultConfig
                    (set_AllowedOrigins
                       (SliceOf ["http://a.com"; "http://b.com"])
                       zero_Config))).
    cbn. lia.
  - apply (proj2 (MergeConfigs_AllowedOrigins GetDefaultConfig zero_Config)).
    reflexivity.
Defined.

(** C7. For non-nil operands the result's EnableLogging is that of
    [override]; a [base] that enables logging merged with an [override]
    whose flag is [false] gives [false]. *)
Theorem MergeConfigs_EnableLogging (base override : Config) :
  EnableLogging (Server (MergeConfigs (Some base) (Some override)))
  = EnableLogging (Server override).
Proof. merge_fields. reflexivity. Qed.


(** Two merges in a row, on both associations, are the same value. *)
Lemma MergeConfigs_assoc_eq (a b c : Config) :
  MergeConfigs (Some (MergeConfigs (Some a) (Some b))) (Some c)
  = MergeConfigs (Some a) (Some (MergeConfigs (Some b) (Some c))).
Proof.
  merge_fields.
  now rewrite pick_port_assoc, pick_origins_assoc.
Qed.

(** C9. Merging is associative on non-nil operands, up to value
    equality; hence the two merges of the pipeline give each overridable
    field to the last operand that has it present (environment, then
    file, then default), the flag to the last operand, and the hardcoded
    fields to the first. *)
Theorem MergeConfigs_assoc (a b c : Config) :
  let l := MergeConfigs (Some (MergeConfigs (Some a) (Some b))) (Some c) in
  let r := MergeConfigs (Some a) (Some (MergeConfigs (Some b) (Some c))) in
  value_eq l r /\
  Port (Server l) =
    (if Port (Server c) =? 0
     then if Port (Server b) =? 0 then Port (Server a) else Port (Server b)
     else Port (Server c)) /\
  elems (AllowedOrigins (Server l)) =
    (if (0 <? len (AllowedOrigins (Server c)))%nat
     then elems (AllowedOrigins (Server c))
     else if (0 <? len (AllowedOrigins (Server b)))%nat
          then elems (AllowedOrigins (Server b))
          else elems (AllowedOrigins (Server a))) /\
  EnableLogging (Server l) = EnableLogging (Server c) /\
  ShutdownTimeout (Server l) = ShutdownTimeout (Server a) /\
  ReadTimeout (Server l) = ReadTimeout (Server a) /\
  WriteTimeout (Server l) = WriteTimeout (Server a) /\
  elems (AllowedMethods (Server l)) = elems (AllowedMethods (Server a)).
Proof.
  cbv zeta. split.
  - rewrite MergeConfigs_assoc_eq. repeat split.
  - merge_fields. repeat split.
Qed.

(** C10. Merging a non-nil configuration with itself gives back a value
    equal to it in every field. *)
Theorem MergeConfigs_idempotent (c : Config) :
  value_eq (MergeConfigs (Some c) (Some c)) c.
Proof.
  unfold value_eq. merge_fields.
  rewrite pick_port_idem, pick_origins_idem. repeat split.
Qed.

(** ** The environment loader *)

Lemma LoadEnvConfig_read_failed (f : EnvFile) (e : error) :
  snd (godotenv.Read f) = Some e ->
  LoadEnvConfig f = (Some GetDefaultConfig, None).
Proof.
  unfold LoadEnvConfig. destruct (godotenv.Read f) as [vars err].
  cbn [snd]. now intros ->.
Qed.

Lemma LoadEnvConfig_no_error (f : EnvFile) : snd (LoadEnvConfig f) = None.
Proof.
  unfold LoadEnvConfig. destruct (godotenv.Read f) as [vars [e |]];
    reflexivity.
Qed.

Lemma LoadEnvConfig_returns (f : EnvFile) :
  exists cfg, LoadEnvConfig f = (Some cfg, None).
Proof.
  unfold LoadEnvConfig. destruct (godotenv.Read f) as [vars [e |]];
    eexists; reflexivity.
Qed.

Lemma loadConfiguration_no_error
    (path : string) (fs : gmap string file) (f : EnvFile) :
  exists cfg log, loadConfiguration path fs f = ((Some cfg, None), log).
Proof.
  unfold loadConfiguration.
  destruct (LoadEnvConfig_returns f) as [envCfg ->].
  destruct (negb (String.eqb path ""));
    [destruct (LoadConfig fs path) as [jsonCfg [err |]] |];
    eexists; eexists; reflexivity.
Qed.

(** C3, as the code has it. Loading the environment configuration never
    returns an error: when reading the environment file fails, whether
    because the file is absent or for any other reason, the loader
    returns the default configuration and a nil error; and the
    configuration pipeline of [main] never fails either. *)
Theorem LoadEnvConfig_never_fails
    (f : EnvFile) (path : string) (fs : gmap string file) :
  snd (LoadEnvConfig f) = None /\
  (forall e : error,
      snd (godotenv.Read f) = Some e ->
      LoadEnvConfig f = (Some GetDefaultConfig, None)) /\
  snd (fst (loadConfiguration path fs f)) = None.
Proof.
  split; [apply LoadEnvConfig_no_error |].
  split; [intros e; apply LoadEnvConfig_read_failed |].
  destruct (loadConfiguration_no_error path fs f) as (cfg & log & ->).
  reflexivity.
Qed.

Lemma LoadEnvConfig_never_fails_witness :
  LoadEnvConfig (EnvUnreadable (Err "open .env: permission denied"))
  = (Some GetDefaultConfig, None).
Proof.
  apply (proj1 (proj2 (LoadEnvConfig_never_fails
                         (EnvUnreadable (Err "open .env: permission denied"))
                         "" ∅))
           (Err "open .env: permission denied")).
  reflexivity.
Defined.

(** C3, as stated, fails: a read failure other than absence of the file
    does not make the load fail. *)
Lemma LoadEnvConfig_fails_iff_counterexample :
  ~ (forall f : EnvFile,
        is_Some (snd (LoadEnvConfig f)) <->
        (is_Some (snd (godotenv.Read f)) /\ env_not_exist f = false)).
Proof.
  intros H.
  destruct (H (EnvUnreadable (Err "open .env: permission denied")))
    as [_ H2].
  destruct H2 as [e He].
  - split; [eexists |]; reflexivity.
  - discriminate He.
Qed.

(** A key that is set but whose value the parser rejects leaves the
    field of the default configuration in place. *)
Lemma present_lookup (vars : gmap string string) (key s : string) :
  vars !! key = Some s ->
  present vars key = if String.eqb s "" then None else Some s.
Proof. unfold present. now intros ->. Qed.

(** C8. Whatever the environment file assigns, the loader returns a
    configuration and no error; when PORT is set to a value that
    [strconv.Atoi] rejects the Port is the default provider's 8080, and
    when ENABLE_LOGGING is set to a value that [strconv.ParseBool]
    rejects the flag is the default provider's [true]. *)
Theorem LoadEnvConfig_malformed_keeps_default (vars : gmap string string) :
  exists cfg : Config,
    LoadEnvConfig (EnvVars vars) = (Some cfg, None) /\
    (forall s : string,
        vars !! "PORT" = Some s -> strconv.Atoi s = None ->
        Port (Server cfg) = 8080) /\
    (forall s : string,
        vars !! "ENABLE_LOGGING" = Some s -> strconv.ParseBool s = None ->
        EnableLogging (Server cfg) = true).
Proof.
  unfold LoadEnvConfig. cbn [godotenv.Read].
  eexists. split; [reflexivity |]. split.
  - intros s Hs Hbad. rewrite (present_lookup _ _ _ Hs).
    destruct (String.eqb s ""); [| rewrite Hbad];
      destruct (present vars "ALLOWED_ORIGINS");
      destruct (present vars "ENABLE_LOGGING") as [l |];
      try destruct (strconv.ParseBool l); reflexivity.
  - intros s Hs Hbad. rewrite (present_lookup _ _ _ Hs).
    destruct (String.eqb s ""); [| rewrite Hbad];
      destruct (present vars "ALLOWED_ORIGINS");
      destruct (present vars "PORT") as [p |];
      try destruct (strconv.Atoi p); reflexivity.
Qed.

Lemma LoadEnvConfig_malformed_keeps_default_witness :
  exists cfg : Config,
    LoadEnvConfig (EnvVars {[ "PORT" := "not_a_number" ]})
    = (Some cfg, None) /\
    Port (Server cfg) = 8080.
Proof.
  destruct (LoadEnvConfig_malformed_keeps_default
              {[ "PORT" := "not_a_number" ]}) as (cfg & Hload & Hport & _).
  exists cfg. split; [exact Hload |].
  apply (Hport "not_a_number"); reflexivity.
Defined.

(** Only decimal integer literals are accepted by [strconv.Atoi]. *)
Lemma digits_all_digits (s : string) (acc n : Z) :
  strconv.digits acc s = Some n ->
  forallb (fun c => bool_decide (is_Some (strconv.digit c)))
          (String.list_ascii_of_string s) = true.
Proof.
  revert acc. induction s as [| c rest IH]; intros acc H; [reflexivity |].
  cbn in H |- *. destruct (strconv.digit c) as [d |] eqn:Ed; [| discriminate].
  rewrite (IH _ H). rewrite bool_decide_eq_true_2 by (now eexists).
  reflexivity.
Qed.

Lemma Atoi_accepts_only_decimal (s : string) (z : Z) :
  strconv.Atoi s = Some z -> strconv.decimal s = true.
Proof.
  unfold strconv.Atoi, strconv.decimal.
  destruct s as [| c rest]; [discriminate |].
  set (body := if Ascii.eqb c "-" || Ascii.eqb c "+" then rest
               else String c rest).
  destruct body as [| c' rest'] eqn:Eb; [discriminate |].
  destruct (strconv.digits 0 (String c' rest')) as [n |] eqn:Ed;
    [| discriminate].
  intros _. exact (digits_all_digits _ _ _ Ed).
Qed.

Lemma Atoi_rejects_non_decimal (s : string) :
  strconv.decimal s = false -> strconv.Atoi s = None.
Proof.
  intros H. destruct (strconv.Atoi s) as [z |] eqn:E; [| reflexivity].
  apply Atoi_accepts_only_decimal in E. congruence.
Qed.

Lemma Atoi_in_int (s : string) (z : Z) :
  strconv.Atoi s = Some z -> int_min <= z <= int_max.
Proof.
  unfold strconv.Atoi. destruct s as [| c rest]; [discriminate |].
  destruct (if Ascii.eqb c "-" || Ascii.eqb c "+" then rest
            else String c rest); [discriminate |].
  destruct (strconv.digits 0 _) as [n |]; [| discriminate].
  destruct (in_int _) eqn:E; [| discriminate].
  intros [= <-]. unfold in_int in E. lia.
Qed.

(** ** The configuration pipeline *)

(** With a configuration file that loads, the pipeline is the merge
    applied twice: file over default, then environment over that. *)
Lemma loadConfiguration_pipeline
    (path : string) (fs : gmap string file) (f : EnvFile)
    (jsonCfg envCfg : Config) :
  path <> "" ->
  LoadConfig fs path = (Some jsonCfg, None) ->
  LoadEnvConfig f = (Some envCfg, None) ->
  fst (loadConfiguration path fs f) =
    (Some (MergeConfigs
             (Some (MergeConfigs (Some GetDefaultConfig) (Some jsonCfg)))
             (Some envCfg)), None).
Proof.
  intros Hp Hj He. unfold loadConfiguration.
  apply String.eqb_neq in Hp. rewrite Hp, Hj, He. reflexivity.
Qed.

(** X10. Whatever the configuration file and the environment file hold, the
    configuration that the pipeline hands to the server carries the
    hardcoded fields of the default provider. *)
Lemma loadConfiguration_hardcoded
    (path : string) (fs : gmap string file) (f : EnvFile) :
  exists cfg log,
    loadConfiguration path fs f = ((Some cfg, None), log) /\
    ShutdownTimeout (Server cfg) = 30 /\
    ReadTimeout (Server cfg) = 10 /\
    WriteTimeout (Server cfg) = 10 /\
    elems (AllowedMethods (Server cfg))
    = ["GET"; "POST"; "PUT"; "DELETE"; "OPTIONS"].
Proof.
  unfold loadConfiguration.
  destruct (LoadEnvConfig_returns f) as [envCfg ->].
  destruct (negb (String.eqb path ""));
    [destruct (LoadConfig fs path) as [[jsonCfg |] [err |]] |];
    eexists; eexists; (split; [reflexivity |]);
    merge_fields; repeat split.
Qed.

(** ** Trimming *)

Lemma leading_width (runes : list (list N)) (bs : list N) (w : nat) :
  Forall (fun r => r <> []) runes ->
  strings.leading runes bs = Some w ->
  (1 <= w <= length bs)%nat.
Proof.
  unfold strings.leading. intros Hne H.
  destruct (List.find _ runes) as [r |] eqn:Ef; [| discriminate].
  injection H as <-.
  apply find_some in Ef as [Hin Hpre].
  rewrite Forall_forall in Hne. apply list_elem_of_In, Hne in Hin.
  clear Hne. split; [destruct r; [congruence | cbn; lia] |].
  clear Hin. revert bs Hpre.
  induction r as [| x r IH]; intros bs Hpre; cbn; [lia |].
  destruct bs as [| b bs]; [discriminate |]. cbn in Hpre |- *.
  apply andb_prop in Hpre as [_ Hpre]. specialize (IH _ Hpre). lia.
Qed.

(** The fuel given by [TrimSpace] is enough: what [strip] returns starts
    with no further rune to drop. *)
Lemma strip_complete (runes : list (list N)) (fuel : nat) :
  Forall (fun r => r <> []) runes ->
  forall bs : list N,
    (length bs <= fuel)%nat ->
    strings.leading runes (strings.strip runes fuel bs) = None.
Proof.
  intros Hne. induction fuel as [| fuel IH]; intros bs Hlen.
  - destruct bs; [| cbn in Hlen; lia]. cbn.
    destruct (strings.leading runes []) as [w |] eqn:E; [| reflexivity].
    apply leading_width in E; [cbn in E; lia | exact Hne].
  - cbn. destruct (strings.leading runes bs) as [w |] eqn:E; [| exact E].
    apply IH. apply leading_width in E; [| exact Hne].
    rewrite length_drop. lia.
Qed.

(** ** The file loader *)

Section FileLoader.

Import jsonlib.


Lemma into_members_cons
    (k : string) (j : json) (rest : list (string * json))
    (c : ServerConfig) :
  into_members ((k, j) :: rest) c =
  match match_key server_keys k with
  | Some f => c' ← into_field f j c; into_members rest c'
  | None => into_members rest c
  end.
Proof. reflexivity. Qed.

Lemma into_Config_members_cons
    (k : string) (j : json) (rest : list (string * json)) (c : Config) :
  into_Config_members ((k, j) :: rest) c =
  if String.eqb (lower k) "server"
  then s ← into_ServerConfig j (Server c);
       into_Config_members rest (mkConfig s)
  else into_Config_members rest c.
Proof. reflexivity. Qed.




End FileLoader.

(** C4, at the input where the code departs from it. A file that spells
    the hardcoded fields by their Go names, as [WriteConfig] itself
    writes them, loads into a configuration that carries the file's
    values for the three timeouts and for AllowedMethods. *)
Theorem LoadConfig_reads_untagged_fields :
  LoadConfig
    {[ "config.json" :=
         Readable (Document (JObj [
           ("server", JObj [
              ("port", JInt 3000);
              ("ShutdownTimeout", JInt 45);
              ("ReadTimeout", JInt 15);
              ("WriteTimeout", JInt 15);
              ("AllowedMethods", JArr [JStr "GET"; JStr "POST"]) ]) ])) ]}
    "config.json"
  = (Some (mkConfig {|
       Port := 3000;
       ShutdownTimeout := 45;
       ReadTimeout := 15;
       WriteTimeout := 15;
       AllowedOrigins := SliceNil;
       AllowedMethods := SliceOf ["GET"; "POST"];
       EnableLogging := false |}), None).
Proof. vm_compute. reflexivity. Qed.

(** ** Shutdown *)

(** C2, as the code has it. After a signal, when the deadline of the
    drain passes before the in-flight requests finish, the failure is
    logged, returned to [main] as an error and treated there as fatal:
    the process exits with status 1. After a complete drain it exits
    with status 0. *)
Theorem drain_timeout_is_fatal (w : world) (sig : signal) :
  first_event w = Signalled sig ->
  (drain_result w = DeadlineElapsed ->
     fst (startServerWithGracefulShutdown (first_event w) (drain_result w))
     = Some (Wrap "graceful shutdown failed" DeadlineExceeded) /\
     fst (main w) = 1 /\
     Printf "Graceful shutdown failed: context deadline exceeded"
       ∈ snd (main w) /\
     Fatalf
       "Server failed: graceful shutdown failed: context deadline exceeded"
       ∈ snd (main w)) /\
  (drain_result w = Drained ->
     fst (main w) = 0 /\
     Printf "Server shutdown completed successfully" ∈ snd (main w)).
Proof.
  intros Hsel. unfold main.
  destruct (loadConfiguration_no_error (CONFIG_PATH w) (files w) (dotenv w))
    as (cfg & log & ->).
  rewrite Hsel. split; intros ->; cbn.
  - split; [reflexivity |]. split; [reflexivity |].
    split; rewrite !elem_of_app, !elem_of_cons; tauto.
  - split; [reflexivity |].
    rewrite !elem_of_app, !elem_of_cons; tauto.
Qed.

Lemma drain_timeout_is_fatal_witness :
  fst (main (mkWorld "" ∅ EnvAbsent (Signalled SIGTERM) DeadlineElapsed)) = 1.
Proof.
  apply (proj1 (drain_timeout_is_fatal
                  (mkWorld "" ∅ EnvAbsent (Signalled SIGTERM) DeadlineElapsed)
                  SIGTERM eq_refl) eq_refl).
Defined.

(** C2, as stated, fails: with no configuration file, no environment
    file, SIGTERM and a drain that outlasts its deadline, the process
    exits with status 1 after a fatal log line. *)
Lemma drain_timeout_exit_zero_counterexample :
  let w := mkWorld "" ∅ EnvAbsent (Signalled SIGTERM) DeadlineElapsed in
  main w =
    (1, [ Printf "Received signal terminated, initiating graceful shutdown...";
          Printf "Graceful shutdown failed: context deadline exceeded";
          Fatalf "Server failed: graceful shutdown failed: context deadline exceeded" ])
  /\ fst (main w) <> 0.
Proof. cbv zeta. split; [vm_compute; reflexivity | vm_compute; discriminate]. Qed.

(** ** Further properties of the merge *)

(** X1. A merge loses no present value: the Port of the result is zero only
    when both operands have a zero Port, and its AllowedOrigins is empty
    only when both operands' are. *)
Theorem MergeConfigs_keeps_present (base override : Config) :
  let r := Server (MergeConfigs (Some base) (Some override)) in
  (Port r = 0 <->
     Port (Server base) = 0 /\ Port (Server override) = 0) /\
  (len (AllowedOrigins r) = 0%nat <->
     len (AllowedOrigins (Server base)) = 0%nat /\
     len (AllowedOrigins (Server override)) = 0%nat).
Proof.
  cbv zeta. merge_fields. unfold pick_port, pick_origins, len. cbn [elems].
  split.
  - destruct (Z.eqb_spec (Port (Server override)) 0); lia.
  - destruct (Nat.ltb_spec 0 (length (elems (AllowedOrigins (Server override)))));
      lia.
Qed.

(** An override with a Port and with origins decides the overridable
    fields alone: the base contributes only the hardcoded ones. *)
Lemma MergeConfigs_full_override (base override : Config) :
  Port (Server override) <> 0 ->
  (0 < len (AllowedOrigins (Server override)))%nat ->
  let r := Server (MergeConfigs (Some base) (Some override)) in
  Port r = Port (Server override) /\
  elems (AllowedOrigins r) = elems (AllowedOrigins (Server override)) /\
  EnableLogging r = EnableLogging (Server override).
Proof.
  intros Hp Ho. cbv zeta. merge_fields. unfold pick_port, pick_origins.
  apply Z.eqb_neq in Hp. rewrite Hp.
  unfold len in Ho. apply Nat.ltb_lt in Ho. rewrite Ho. repeat split.
Qed.

(** ** Further properties of the environment loader *)

Lemma Split_comma_nonempty (s : string) : strings.Split_comma s <> [].
Proof.
  destruct s as [| c rest]; cbn; [discriminate |].
  destruct (Ascii.eqb c ","); [discriminate |].
  destruct (strings.Split_comma rest); discriminate.
Qed.

(** Number of commas of a string. *)
Lemma Split_comma_length (s : string) :
  length (strings.Split_comma s)
  = S (length (filter (fun c => c = ","%char)
                 (String.list_ascii_of_string s))).
Proof.
  induction s as [| c rest IH]; [reflexivity |].
  cbn [strings.Split_comma String.list_ascii_of_string].
  rewrite filter_cons.
  destruct (Ascii.eqb_spec c ",") as [-> | Hne].
  - rewrite decide_True by reflexivity. cbn. now rewrite IH.
  - rewrite decide_False by exact Hne.
    destruct (strings.Split_comma rest) as [| p ps] eqn:E;
      [now apply Split_comma_nonempty in E |].
    cbn in IH |- *. exact IH.
Qed.

(** X3. Whatever the environment file holds or however reading it ends, the
    configuration of the environment loader carries the hardcoded
    fields of the default provider, and its AllowedOrigins is an
    allocated, non-empty slice. *)
Theorem LoadEnvConfig_hardcoded (f : EnvFile) :
  exists cfg : Config,
    LoadEnvConfig f = (Some cfg, None) /\
    ShutdownTimeout (Server cfg) = 30 /\
    ReadTimeout (Server cfg) = 10 /\
    WriteTimeout (Server cfg) = 10 /\
    AllowedMethods (Server cfg)
    = SliceOf ["GET"; "POST"; "PUT"; "DELETE"; "OPTIONS"] /\
    (0 < len (AllowedOrigins (Server cfg)))%nat.
Proof.
  unfold LoadEnvConfig.
  destruct (godotenv.Read f) as [vars [e |]].
  { eexists. split; [reflexivity |]. cbn. repeat split; lia. }
  eexists. split; [reflexivity |].
  destruct (present vars "PORT") as [p |];
    [destruct (strconv.Atoi p) |];
    (destruct (present vars "ALLOWED_ORIGINS") as [o |];
     [pose proof (Split_comma_nonempty o) as Hne;
      destruct (strings.Split_comma o) as [| x xs]; [congruence |] |]);
    (destruct (present vars "ENABLE_LOGGING") as [l |];
     [destruct (strconv.ParseBool l) |]);
    cbn; repeat split; lia.
Qed.

Lemma strip_is_drop (runes : list (list N)) (fuel : nat) :
  forall bs : list N, exists k : nat, strings.strip runes fuel bs = drop k bs.
Proof.
  induction fuel as [| fuel IH]; intros bs; [now exists 0%nat |].
  cbn. destruct (strings.leading runes bs) as [w |]; [| now exists 0%nat].
  destruct (IH (drop w bs)) as [k ->]. exists (w + k)%nat.
  now rewrite drop_drop.
Qed.

Lemma has_prefix_take (r : list N) :
  forall (l : list N) (m : nat),
    strings.has_prefix r (take m l) = true -> strings.has_prefix r l = true.
Proof.
  induction r as [| x r IH]; intros l m H; [reflexivity |].
  destruct l as [| b l]; [now rewrite take_nil in H |].
  destruct m as [| m]; [discriminate |].
  cbn in H |- *. apply andb_prop in H as [-> H]. cbn. eauto.
Qed.

Lemma leading_take (runes : list (list N)) (l : list N) (m : nat) :
  strings.leading runes l = None ->
  strings.leading runes (take m l) = None.
Proof.
  unfold strings.leading. intros H.
  destruct (List.find _ runes) as [r |] eqn:E; [discriminate |]. clear H.
  destruct (List.find (fun r => strings.has_prefix r (take m l)) runes)
    as [r |] eqn:E'; [| reflexivity].
  apply find_some in E' as [Hin Hp].
  apply has_prefix_take in Hp.
  pose proof (find_none _ _ E r Hin) as Hn. cbn in Hn. congruence.
Qed.

Lemma bytes_bounded (s : string) :
  Forall (fun b => (b < 256)%N) (strings.bytes s).
Proof.
  unfold strings.bytes. apply Forall_fmap, Forall_forall.
  intros c _. apply N_ascii_bounded.
Qed.

Lemma bytes_of_bytes (bs : list N) :
  Forall (fun b => (b < 256)%N) bs ->
  strings.bytes (strings.of_bytes bs) = bs.
Proof.
  unfold strings.bytes, strings.of_bytes. intros H.
  rewrite String.list_ascii_of_string_of_list_ascii.
  induction H as [| b bs Hb _ IH]; [reflexivity |].
  cbn. rewrite IH. f_equal. now apply N_ascii_embedding.
Qed.

Lemma space_runes_nonempty :
  Forall (fun r => r <> []) strings.space_runes /\
  Forall (fun r => r <> []) (reverse <$> strings.space_runes).
Proof. split; vm_compute; repeat constructor; discriminate. Qed.

(** What [TrimSpace] returns neither starts nor ends with a white-space
    rune. *)
Lemma TrimSpace_trimmed (s : string) : trimmed (strings.TrimSpace s).
Proof.
  destruct space_runes_nonempty as [Hl Hr].
  unfold trimmed, strings.TrimSpace.
  set (bs := strings.bytes s).
  set (left := strings.strip strings.space_runes (length bs) bs).
  set (right := strings.strip (reverse <$> strings.space_runes)
                  (length left) (reverse left)).
  assert (Hleft : strings.leading strings.space_runes left = None)
    by (apply strip_complete; [exact Hl | reflexivity]).
  assert (Hright :
    strings.leading (reverse <$> strings.space_runes) right = None).
  { apply strip_complete; [exact Hr |]. now rewrite length_reverse. }
  destruct (strip_is_drop strings.space_runes (length bs) bs) as [k Hk].
  destruct (strip_is_drop (reverse <$> strings.space_runes)
              (length left) (reverse left)) as [k' Hk'].
  fold left in Hk. fold right in Hk'.
  assert (Hb : Forall (fun b => (b < 256)%N) (reverse right)).
  { apply Forall_reverse. rewrite Hk'. apply Forall_drop, Forall_reverse.
    rewrite Hk. apply Forall_drop, bytes_bounded. }
  rewrite (bytes_of_bytes _ Hb). split.
  - rewrite Hk', drop_reverse, reverse_involutive.
    now apply leading_take.
  - now rewrite reverse_involutive.
Qed.

(** X4. A non-empty ALLOWED_ORIGINS gives one origin per comma-separated
    piece, in order, each with the white space around it removed. *)
Theorem LoadEnvConfig_origins (vars : gmap string string) (s : string) :
  vars !! "ALLOWED_ORIGINS" = Some s ->
  s <> "" ->
  exists cfg : Config,
    LoadEnvConfig (EnvVars vars) = (Some cfg, None) /\
    elems (AllowedOrigins (Server cfg))
    = strings.TrimSpace <$> strings.Split_comma s /\
    len (AllowedOrigins (Server cfg)) = S (commas s) /\
    Forall trimmed (elems (AllowedOrigins (Server cfg))).
Proof.
  intros Hs Hne. unfold LoadEnvConfig. cbn [godotenv.Read].
  rewrite (present_lookup _ _ _ Hs).
  apply String.eqb_neq in Hne. rewrite Hne.
  eexists. split; [reflexivity |].
  assert (Hel : forall c : Config,
    elems (AllowedOrigins (Server
      (match present vars "ENABLE_LOGGING" with
       | Some loggingStr =>
           match strconv.ParseBool loggingStr with
           | Some logging => set_EnableLogging logging c
           | None => c
           end
       | None => c
       end))) = elems (AllowedOrigins (Server c))).
  { intros c. destruct (present vars "ENABLE_LOGGING") as [l |];
      [destruct (strconv.ParseBool l) |]; reflexivity. }
  unfold len. rewrite Hel. cbn [set_AllowedOrigins Server AllowedOrigins elems].
  split; [reflexivity |]. split.
  - rewrite length_fmap. apply Split_comma_length.
  - apply Forall_fmap, Forall_forall. intros x _. apply TrimSpace_trimmed.
Qed.

Lemma LoadEnvConfig_origins_witness :
  exists cfg : Config,
    LoadEnvConfig
      (EnvVars {[ "ALLOWED_ORIGINS" := " http://a.com , http://b.com" ]})
    = (Some cfg, None) /\
    len (AllowedOrigins (Server cfg)) = 2%nat.
Proof.
  destruct (LoadEnvConfig_origins
              {[ "ALLOWED_ORIGINS" := " http://a.com , http://b.com" ]}
              " http://a.com , http://b.com")
    as (cfg & Hload & _ & Hlen & _); [reflexivity | discriminate |].
  exists cfg. split; [exact Hload | exact Hlen].
Defined.

(** X5. The loader reads three keys only: setting any other key of the
    environment file changes nothing. *)
Theorem LoadEnvConfig_other_keys
    (vars : gmap string string) (k v : string) :
  k <> "PORT" -> k <> "ALLOWED_ORIGINS" -> k <> "ENABLE_LOGGING" ->
  LoadEnvConfig (EnvVars (<[k := v]> vars)) = LoadEnvConfig (EnvVars vars).
Proof.
  intros H1 H2 H3. unfold LoadEnvConfig, present. cbn [godotenv.Read].
  now rewrite !lookup_insert_ne by done.
Qed.

Lemma LoadEnvConfig_other_keys_witness :
  LoadEnvConfig (EnvVars (<["SHUTDOWN_TIMEOUT" := "45"]> ∅))
  = LoadEnvConfig (EnvVars ∅).
Proof.
  apply (LoadEnvConfig_other_keys ∅ "SHUTDOWN_TIMEOUT" "45"); discriminate.
Defined.

(** ** Further properties of the pipeline and of [main] *)

(** X11. The environment configuration decides the outcome of the pipeline:
    the final AllowedOrigins and EnableLogging are always those of the
    environment loader, the final Port is never zero, and unless the
    environment file sets PORT to zero the final configuration equals
    the environment configuration, whatever the configuration file
    holds. *)
Theorem loadConfiguration_env_decides
    (path : string) (fs : gmap string file) (f : EnvFile) :
  exists (cfg envCfg : Config) (log : list logline),
    loadConfiguration path fs f = ((Some cfg, None), log) /\
    LoadEnvConfig f = (Some envCfg, None) /\
    elems (AllowedOrigins (Server cfg))
    = elems (AllowedOrigins (Server envCfg)) /\
    EnableLogging (Server cfg) = EnableLogging (Server envCfg) /\
    Port (Server cfg) <> 0 /\
    (Port (Server envCfg) <> 0 -> value_eq cfg envCfg).
Proof.
  destruct (LoadEnvConfig_hardcoded f)
    as (envCfg & Henv & Hst & Hrt & Hwt & Ham & Hao).
  assert (Hgen : forall base : Config,
    Port (Server base) <> 0 ->
    ShutdownTimeout (Server base) = 30 ->
    ReadTimeout (Server base) = 10 ->
    WriteTimeout (Server base) = 10 ->
    elems (AllowedMethods (Server base))
    = ["GET"; "POST"; "PUT"; "DELETE"; "OPTIONS"] ->
    let cfg := MergeConfigs (Some base) (Some envCfg) in
    elems (AllowedOrigins (Server cfg))
    = elems (AllowedOrigins (Server envCfg)) /\
    EnableLogging (Server cfg) = EnableLogging (Server envCfg) /\
    Port (Server cfg) <> 0 /\
    (Port (Server envCfg) <> 0 -> value_eq cfg envCfg)).
  { intros base Hp H1 H2 H3 H4. cbv zeta. unfold value_eq. merge_fields.
    unfold pick_port, pick_origins.
    unfold len in Hao. apply Nat.ltb_lt in Hao. rewrite Hao.
    rewrite Ham. cbn [elems].
    destruct (Z.eqb_spec (Port (Server envCfg)) 0) as [E | E];
      repeat split; try congruence. }
  unfold loadConfiguration. rewrite Henv.
  destruct (negb (String.eqb path ""));
    [destruct (LoadConfig fs path) as [[jsonCfg |] [err |]] |];
    eexists; exists envCfg; eexists;
    (split; [reflexivity |]); (split; [reflexivity |]);
    apply Hgen; try (merge_fields; reflexivity); try discriminate.
  merge_fields. unfold pick_port.
  destruct (Z.eqb_spec (Port (Server jsonCfg)) 0); [discriminate | assumption].
Qed.

Lemma loadConfiguration_env_decides_witness :
  exists cfg : Config,
    fst (loadConfiguration "config.json"
           {[ "config.json" :=
                Readable (Document (JObj [
                  ("server", JObj [("port", JInt 3000)]) ])) ]}
           EnvAbsent) = (Some cfg, None) /\
    value_eq cfg GetDefaultConfig.
Proof.
  destruct (loadConfiguration_env_decides "config.json"
              {[ "config.json" :=
                   Readable (Document (JObj [
                     ("server", JObj [("port", JInt 3000)]) ])) ]}
              EnvAbsent)
    as (cfg & envCfg & log & Hload & Henv & _ & _ & _ & Heq).
  exists cfg. rewrite Hload. split; [reflexivity |].
  injection Henv as <-. apply Heq. discriminate.
Defined.

(** X12. The configuration file is optional: when it cannot be loaded the
    pipeline logs one warning and goes on as if no file had been named;
    when no file is named or the file loads, it logs nothing. *)
Theorem loadConfiguration_file_optional
    (path : string) (fs : gmap string file) (f : EnvFile) :
  (forall err : error,
      path <> "" -> snd (LoadConfig fs path) = Some err ->
      loadConfiguration path fs f =
        (fst (loadConfiguration "" fs f),
         [Printf ("Warning: Failed to load JSON config from "
                    +:+ path +:+ ": " +:+ Error err)])) /\
  (path = "" \/ snd (LoadConfig fs path) = None ->
   snd (loadConfiguration path fs f) = []).
Proof.
  destruct (LoadEnvConfig_returns f) as [envCfg Henv].
  unfold loadConfiguration. rewrite Henv. split.
  - intros err Hp Herr. apply String.eqb_neq in Hp. rewrite Hp. cbn [negb].
    destruct (LoadConfig fs path) as [jsonCfg e]. cbn in Herr. subst e.
    reflexivity.
  - intros [-> | Hok]; [reflexivity |].
    destruct (negb (String.eqb path "")); [| reflexivity].
    destruct (LoadConfig fs path) as [jsonCfg e]. cbn in Hok. subst e.
    reflexivity.
Qed.

Lemma loadConfiguration_file_optional_witness :
  loadConfiguration "missing.json" ∅ EnvAbsent =
    (fst (loadConfiguration "" ∅ EnvAbsent),
     [Printf ("Warning: Failed to load JSON config from missing.json: "
                +:+ "config file does not exist: missing.json")]).
Proof.
  apply (proj1 (loadConfiguration_file_optional "missing.json" ∅ EnvAbsent)
           (Err "config file does not exist: missing.json")).
  - discriminate.
  - reflexivity.
Defined.

(** X13. The process exits with status zero exactly when a signal arrived and
    the drain completed. *)
Theorem main_exit_zero_iff (w : world) :
  fst (main w) = 0 <->
  (exists sig : signal, first_event w = Signalled sig) /\
  drain_result w = Drained.
Proof.
  unfold main.
  destruct (loadConfiguration_no_error (CONFIG_PATH w) (files w) (dotenv w))
    as (cfg & log & ->).
  destruct (first_event w) as [e | sig]; cbn.
  - split; [discriminate | intros [[sig Hs] _]; discriminate].
  - destruct (drain_result w); cbn; split; try discriminate.
    + intros _. split; [now exists sig | reflexivity].
    + reflexivity.
    + intros [_ H]; discriminate.
    + intros [_ H]; discriminate.
Qed.



(** ** Further properties of the file loader and writer *)

(** X7. [LoadConfig] returns a configuration exactly when it returns no
    error: never both, never neither; a path without a file, an
    unreadable file and malformed content all give an error. *)
Theorem LoadConfig_config_xor_error (fs : gmap string file) (path : string) :
  ((exists cfg : Config, LoadConfig fs path = (Some cfg, None)) \/
   (exists err : error, LoadConfig fs path = (None, Some err))) /\
  (fs !! path = None \/
   (exists cause, fs !! path = Some (Unreadable cause)) \/
   fs !! path = Some (Readable Malformed) ->
   fst (LoadConfig fs path) = None).
Proof.
  unfold LoadConfig. split.
  - destruct (fs !! path) as [[cause | data] |];
      [right | | right]; try (eexists; reflexivity).
    destruct (jsonlib.Unmarshal data zero_Config);
      [left | right]; eexists; reflexivity.
  - intros [-> | [[cause ->] | ->]]; reflexivity.
Qed.

Lemma LoadConfig_config_xor_error_witness :
  fst (LoadConfig {[ "c.json" := Readable Malformed ]} "c.json") = None.
Proof.
  apply (proj2 (LoadConfig_config_xor_error
                  {[ "c.json" := Readable Malformed ]} "c.json")).
  right. right. reflexivity.
Defined.


Lemma match_key_key_of (f : jsonlib.field) :
  jsonlib.match_key jsonlib.server_keys (jsonlib.key_of f) = Some f.
Proof. destruct f; vm_compute; reflexivity. Qed.

Lemma into_strings_marshal (s : slice) :
  Forall (fun x => utf8.valid x = true) (elems s) ->
  jsonlib.into_strings (marshal_strings s) = Some s.
Proof.
  destruct s as [| l]; [reflexivity |]. cbn [elems marshal_strings].
  intros H. cbn [jsonlib.into_strings].
  assert (E : mapM jsonlib.into_string
                ((fun x => JStr (utf8.coerce x)) <$> l) = Some l).
  { induction H as [| x l Hx _ IH]; [reflexivity |].
    cbn. rewrite IH. cbn. unfold utf8.valid in Hx.
    apply String.eqb_eq in Hx. now rewrite Hx. }
  now rewrite E.
Qed.

(** Decoding what the encoder writes gives back the configuration,
    whatever the target held before. *)
Lemma Unmarshal_MarshalIndent (cfg start : Config) :
  in_int (Port (Server cfg)) = true ->
  in_int (ShutdownTimeout (Server cfg)) = true ->
  in_int (ReadTimeout (Server cfg)) = true ->
  in_int (WriteTimeout (Server cfg)) = true ->
  Forall (fun x => utf8.valid x = true) (elems (AllowedOrigins (Server cfg))) ->
  Forall (fun x => utf8.valid x = true) (elems (AllowedMethods (Server cfg))) ->
  jsonlib.Unmarshal (Document (MarshalIndent (Some cfg))) start = Some cfg.
Proof.
  intros Hp Hs Hr Hw Ho Hm.
  destruct cfg as [[p st rt wt ao am el]]. cbn [Server Port ShutdownTimeout
    ReadTimeout WriteTimeout AllowedOrigins AllowedMethods EnableLogging] in *.
  unfold MarshalIndent, jsonlib.Unmarshal, marshal_ServerConfig.
  cbn [Server Port ShutdownTimeout ReadTimeout WriteTimeout AllowedOrigins
       AllowedMethods EnableLogging].
  rewrite into_Config_members_cons.
  change (String.eqb (jsonlib.lower "server") "server") with true.
  cbn [jsonlib.into_ServerConfig].
  rewrite !into_members_cons, !match_key_key_of.
  cbn [jsonlib.into_field jsonlib.into_int jsonlib.into_bool].
  rewrite Hp. cbn [mbind option_bind].
  rewrite !into_members_cons, !match_key_key_of.
  cbn [jsonlib.into_field jsonlib.into_int jsonlib.into_bool].
  rewrite Hs. cbn [mbind option_bind].
  rewrite !into_members_cons, !match_key_key_of.
  cbn [jsonlib.into_field jsonlib.into_int jsonlib.into_bool].
  rewrite Hr. cbn [mbind option_bind].
  rewrite !into_members_cons, !match_key_key_of.
  cbn [jsonlib.into_field jsonlib.into_int jsonlib.into_bool].
  rewrite Hw. cbn [mbind option_bind].
  rewrite !into_members_cons, !match_key_key_of.
  cbn [jsonlib.into_field].
  rewrite (into_strings_marshal ao Ho). cbn [mbind option_bind].
  rewrite !into_members_cons, !match_key_key_of.
  cbn [jsonlib.into_field].
  rewrite (into_strings_marshal am Hm). cbn [mbind option_bind].
  rewrite !into_members_cons, !match_key_key_of.
  cbn [jsonlib.into_field jsonlib.into_bool mbind option_bind].
  reflexivity.
Qed.

(** X9. Round trip. A configuration whose integers are 64-bit and whose
    strings are valid UTF-8, once written to a path that is not an
    unreadable file, loads back from that path unchanged, the hardcoded
    fields included and nil slices still nil. *)
Theorem WriteConfig_LoadConfig
    (fs : gmap string file) (path : string) (cfg : Config) :
  in_int (Port (Server cfg)) = true ->
  in_int (ShutdownTimeout (Server cfg)) = true ->
  in_int (ReadTimeout (Server cfg)) = true ->
  in_int (WriteTimeout (Server cfg)) = true ->
  Forall (fun x => utf8.valid x = true) (elems (AllowedOrigins (Server cfg))) ->
  Forall (fun x => utf8.valid x = true) (elems (AllowedMethods (Server cfg))) ->
  (forall cause, fs !! path <> Some (Unreadable cause)) ->
  snd (WriteConfig fs path (Some cfg) WriteOk) = None /\
  LoadConfig (fst (WriteConfig fs path (Some cfg) WriteOk)) path
  = (Some cfg, None).
Proof.
  intros Hp Hs Hr Hw Ho Hm Hfile.
  unfold WriteConfig, WriteFile.
  assert (E : match fs !! path with
              | Some (Unreadable _) => fs
              | _ => <[path := Readable (Document (MarshalIndent (Some cfg)))]> fs
              end
              = <[path := Readable (Document (MarshalIndent (Some cfg)))]> fs).
  { destruct (fs !! path) as [[cause | d] |] eqn:Ef; try reflexivity.
    now destruct (Hfile cause). }
  rewrite E. cbn [fst snd]. split; [reflexivity |].
  unfold LoadConfig. rewrite lookup_insert_eq.
  now rewrite Unmarshal_MarshalIndent.
Qed.

Lemma WriteConfig_LoadConfig_witness :
  LoadConfig (fst (WriteConfig ∅ "config.json" (Some GetDefaultConfig) WriteOk))
    "config.json"
  = (Some GetDefaultConfig, None).
Proof.
  apply (WriteConfig_LoadConfig ∅ "config.json" GetDefaultConfig);
    try reflexivity.
  - repeat constructor.
  - repeat constructor.
  - intros cause. rewrite lookup_empty. discriminate.
Defined.

(** ** [createServer] *)

Lemma digit_digit_char (n : Z) :
  0 <= n < 10 -> strconv.digit (fmt.digit_char n) = Some n.
Proof.
  intros H.
  assert (A : Forall (fun d => strconv.digit (fmt.digit_char d) = Some d)
                (seqZ 0 10))
    by (vm_compute; repeat constructor).
  rewrite Forall_forall in A. apply A, elem_of_seqZ. lia.
Qed.

Lemma digits_app (s t : string) :
  forall acc : Z,
    strconv.digits acc (s +:+ t) =
    match strconv.digits acc s with
    | Some v => strconv.digits v t
    | None => None
    end.
Proof.
  induction s as [| c s IH]; intros acc; [reflexivity |].
  change (String c s +:+ t) with (String c (s +:+ t)).
  cbn [strconv.digits]. destruct (strconv.digit c); [apply IH | reflexivity].
Qed.

Lemma digits_decimal_digits (fuel : nat) :
  forall n : Z,
    0 <= n < 10 ^ Z.of_nat fuel ->
    strconv.digits 0 (fmt.decimal_digits fuel n) = Some n.
Proof.
  induction fuel as [| fuel IH]; intros n Hn.
  - cbn in Hn. assert (n = 0) as -> by lia. reflexivity.
  - cbn [fmt.decimal_digits].
    destruct (Z.ltb_spec n 10) as [Hlt | Hge].
    + cbn. rewrite digit_digit_char by lia. f_equal.
    + rewrite digits_app, IH.
      * cbn. rewrite digit_digit_char by (apply Z.mod_pos_bound; lia).
        f_equal. pose proof (Z.div_mod n 10). lia.
      * rewrite Nat2Z.inj_succ, Z.pow_succ_r in Hn by lia.
        split; [apply Z.div_pos; lia |].
        apply Z.div_lt_upper_bound; lia.
Qed.

Lemma decimal_digits_head (fuel : nat) (n : Z) :
  0 <= n < 10 ^ Z.of_nat (S fuel) ->
  exists (c : ascii) (rest : string) (d : Z),
    fmt.decimal_digits (S fuel) n = String c rest /\
    strconv.digit c = Some d.
Proof.
  intros Hn. pose proof (digits_decimal_digits (S fuel) n Hn) as Hd.
  destruct (fmt.decimal_digits (S fuel) n) as [| c rest] eqn:E.
  - cbn in E. destruct (n <? 10); [discriminate |].
    destruct (fmt.decimal_digits fuel (n / 10)); discriminate.
  - cbn in Hd. destruct (strconv.digit c) as [d |] eqn:Ed; [| discriminate].
    now exists c, rest, d.
Qed.

(** What [%d] prints for an [int] is read back by [strconv.Atoi]. *)
Lemma Atoi_fmt_d (z : Z) :
  in_int z = true -> strconv.Atoi (fmt.d z) = Some z.
Proof.
  intros Hz. assert (Hb : int_min <= z <= int_max)
    by (unfold in_int in Hz; lia).
  unfold int_min, int_max in Hb.
  unfold fmt.d. destruct (Z.ltb_spec z 0) as [Hneg | Hpos].
  - assert (Hn : 0 <= - z < 10 ^ Z.of_nat 19) by (cbn; lia).
    destruct (decimal_digits_head 18 (- z) Hn) as (c & rest & d & E & Ed).
    pose proof (digits_decimal_digits 19 (- z) Hn) as Hd.
    unfold strconv.Atoi. change (Ascii.eqb "-" "-") with true.
    cbn [orb]. rewrite E in Hd |- *. rewrite Hd.
    rewrite Z.opp_involutive, Hz. reflexivity.
  - assert (Hn : 0 <= z < 10 ^ Z.of_nat 19) by (cbn; lia).
    destruct (decimal_digits_head 18 z Hn) as (c & rest & d & E & Ed).
    pose proof (digits_decimal_digits 19 z Hn) as Hd.
    unfold strconv.Atoi. rewrite E in Hd |- *.
    assert (Hm : Ascii.eqb c "-" = false).
    { destruct (Ascii.eqb_spec c "-") as [-> |]; [discriminate | reflexivity]. }
    assert (Hp : Ascii.eqb c "+" = false).
    { destruct (Ascii.eqb_spec c "+") as [-> |]; [discriminate | reflexivity]. }
    rewrite Hm, Hp. cbn [orb]. rewrite Hd, Hz. reflexivity.
Qed.

(** X15. The server's address is a colon followed by the decimal form of the
    configured Port, which reads back as that Port. *)
Theorem createServer_Addr (cfg : Config) :
  in_int (Port (Server cfg)) = true ->
  exists s : string,
    http.Addr (createServer cfg) = ":" +:+ s /\
    strconv.Atoi s = Some (Port (Server cfg)).
Proof.
  intros H. exists (fmt.d (Port (Server cfg))).
  split; [reflexivity | now apply Atoi_fmt_d].
Qed.

Lemma createServer_Addr_witness :
  exists s : string,
    http.Addr (createServer GetDefaultConfig) = ":" +:+ s /\
    strconv.Atoi s = Some 8080.
Proof. apply (createServer_Addr GetDefaultConfig). reflexivity. Defined.

Lemma seconds_exact (n : Z) :
  - 9223372036 <= n <= 9223372036 -> time.seconds n = n * 1000000000.
Proof.
  intros H. unfold time.seconds, time.wrap64, time.Second.
  rewrite Z.mod_small by lia. lia.
Qed.

(** X16. Timeouts of up to 9223372036 seconds become that many nanoseconds
    times 10^9; the next value already wraps around to a negative
    duration. *)
Theorem createServer_timeouts (cfg : Config) :
  (0 <= ReadTimeout (Server cfg) <= 9223372036 ->
   http.ReadTimeout (createServer cfg)
   = ReadTimeout (Server cfg) * 1000000000) /\
  (0 <= WriteTimeout (Server cfg) <= 9223372036 ->
   http.WriteTimeout (createServer cfg)
   = WriteTimeout (Server cfg) * 1000000000) /\
  http.IdleTimeout (createServer cfg) = 60000000000 /\
  time.seconds 9223372037 < 0.
Proof.
  split; [intros H; apply seconds_exact; lia |].
  split; [intros H; apply seconds_exact; lia |].
  split; [reflexivity | vm_compute; reflexivity].
Qed.

Lemma createServer_timeouts_witness :
  http.ReadTimeout (createServer GetDefaultConfig) = 10000000000 /\
  http.WriteTimeout (createServer GetDefaultConfig) = 10000000000.
Proof.
  split.
  - apply (proj1 (createServer_timeouts GetDefaultConfig)). cbn. lia.
  - apply (proj1 (proj2 (createServer_timeouts GetDefaultConfig))). cbn. lia.
Defined.

(** X17. The server built from the pipeline's configuration always has read
    and write timeouts of ten seconds and an idle timeout of sixty,
    whatever the configuration file and the environment file hold. *)
Theorem createServer_pipeline
    (path : string) (fs : gmap string file) (f : EnvFile) :
  exists (cfg : Config) (log : list logline),
    loadConfiguration path fs f = ((Some cfg, None), log) /\
    http.ReadTimeout (createServer cfg) = 10 * time.Second /\
    http.WriteTimeout (createServer cfg) = 10 * time.Second /\
    http.IdleTimeout (createServer cfg) = 60 * time.Second.
Proof.
  destruct (loadConfiguration_hardcoded path fs f)
    as (cfg & log & Hload & _ & Hr & Hw & _).
  exists cfg, log. split; [exact Hload |].
  unfold createServer. cbn [http.ReadTimeout http.WriteTimeout http.IdleTimeout].
  rewrite Hr, Hw. repeat split.
Qed.

(** ** [internal/middleware] and [internal/routes] *)

Lemma Chain_loop_foldr (ms : list middleware.Middleware) (n : nat) :
  forall final : http.Handler,
    (n <= length ms)%nat ->
    middleware.Chain_loop ms n final
    = foldr (fun m h => m h) final (take n ms).
Proof.
  induction n as [| i IH]; intros final Hn; [reflexivity |].
  cbn [middleware.Chain_loop].
  destruct (ms !! i) as [m |] eqn:E.
  - rewrite IH by lia.
    replace (take (S i) ms) with (take i ms ++ [m])
      by (symmetry; now apply take_S_r).
    now rewrite foldr_app.
  - apply lookup_ge_None in E. unfold middleware.Middleware in *. lia.
Qed.

Lemma Chain_foldr (ms : list middleware.Middleware) (final : http.Handler) :
  middleware.Chain ms final = foldr (fun m h => m h) final ms.
Proof.
  unfold middleware.Chain. rewrite Chain_loop_foldr by reflexivity.
  now rewrite firstn_all.
Qed.

(** X18. [Chain] composes: no middleware is the identity, the first
    middleware is the outermost wrapper, and chaining a concatenation
    is chaining the parts one inside the other. *)
Theorem Chain_compose
    (m : middleware.Middleware) (ms1 ms2 : list middleware.Middleware)
    (final : http.Handler) :
  middleware.Chain [] final = final /\
  middleware.Chain (m :: ms1) final = m (middleware.Chain ms1 final) /\
  middleware.Chain (ms1 ++ ms2) final
  = middleware.Chain ms1 (middleware.Chain ms2 final).
Proof.
  rewrite !Chain_foldr, foldr_app. repeat split.
Qed.

(** The order in which chained loggers run: with two enabled loggers
    around a handler, each logs once before the handler runs. *)
Lemma Logger_in_Chain
    (enabled : bool) (next : http.Handler) (r : http.Request)
    (x : http.exchange) :
  middleware.Chain [middleware.Logger enabled] next r x
  = next r
      (http.mkExchange (http.rw x)
         (http.logged x ++
            (if enabled
             then [Printf ("[" +:+ http.clock x +:+ "] "
                             +:+ http.Method r +:+ " " +:+ http.Path r)]
             else []))
         (http.clock x)).
Proof.
  rewrite Chain_foldr. cbn [foldr]. unfold middleware.Logger.
  destruct enabled; [reflexivity |].
  rewrite app_nil_r. now destruct x.
Qed.

(** X20. What a route handler does to a response whose header was not sent
    yet: status 200 for the paths [/] and [/health] and 404 for every
    other path, whatever the method; the JSON content type is among the
    headers sent; and one value is written, an object that starts with
    its [status] member. *)
Theorem routeHandler_response (r : http.Request) (x : http.exchange) :
  http.status (http.rw x) = None ->
  let w := http.rw (routes.routeHandler r x) in
  http.status w =
    Some (if bool_decide (http.Path r = "/" \/ http.Path r = "/health")
          then 200 else 404) /\
  http.sent w !! "Content-Type" = Some "application/json" /\
  exists (st : string) (rest : list (string * json)),
    http.body w = http.body (http.rw x) ++ [JObj (("status", JStr st) :: rest)]
    /\ st ∈ ["success"; "healthy"; "error"].
Proof.
  intros Hs. cbv zeta. unfold routes.routeHandler.
  destruct (String.eqb_spec (http.Path r) "/") as [E1 | E1];
    [| destruct (String.eqb_spec (http.Path r) "/health") as [E2 | E2]].
  - rewrite bool_decide_eq_true_2 by (now left).
    unfold handlers.Home, http.on_rw, handlers.writeJSONResponse,
      http.Write, http.WriteHeader, http.Header_Set.
    cbn [http.rw http.status http.sent http.headers http.body].
    rewrite Hs. cbn [http.rw http.status http.sent http.headers http.body].
    split; [reflexivity |]. split; [apply lookup_insert_eq |].
    eexists; eexists. split; [reflexivity |]. vm_compute. set_solver.
  - rewrite bool_decide_eq_true_2 by (now right).
    unfold handlers.Health, http.on_rw, handlers.writeJSONResponse,
      http.Write, http.WriteHeader, http.Header_Set.
    cbn [http.rw http.status http.sent http.headers http.body].
    rewrite Hs. cbn [http.rw http.status http.sent http.headers http.body].
    split; [reflexivity |]. split; [apply lookup_insert_eq |].
    eexists; eexists. split; [reflexivity |]. vm_compute. set_solver.
  - rewrite bool_decide_eq_false_2 by (intros [H | H]; contradiction).
    unfold handlers.NotFound, http.on_rw, handlers.writeJSONResponse,
      http.Write, http.WriteHeader, http.Header_Set.
    cbn [http.rw http.status http.sent http.headers http.body].
    rewrite Hs. cbn [http.rw http.status http.sent http.headers http.body].
    split; [reflexivity |]. split; [apply lookup_insert_eq |].
    eexists; eexists. split; [reflexivity |]. vm_compute. set_solver.
Qed.

Lemma routeHandler_response_witness :
  http.status
    (http.rw (routes.routeHandler (http.mkRequest "POST" "/health")
                (http.mkExchange http.fresh [] "")))
  = Some 200.
Proof.
  apply (routeHandler_response (http.mkRequest "POST" "/health")
           (http.mkExchange http.fresh [] "") eq_refl).
Defined.

(** X19. The handler behind the middleware chain answers exactly as the
    route handler does; logging only adds one line per request, with
    the clock, the method and the path, and only when EnableLogging is
    set. *)
Theorem chained_response
    (cfg : Config) (r : http.Request) (x : http.exchange) :
  http.rw (routes.chained cfg r x) = http.rw (routes.routeHandler r x) /\
  http.logged (routes.chained cfg r x) =
    http.logged x ++
      (if EnableLogging (Server cfg)
       then [Printf ("[" +:+ http.clock x +:+ "] "
                       +:+ http.Method r +:+ " " +:+ http.Path r)]
       else []).
Proof.
  unfold routes.chained. rewrite Logger_in_Chain.
  unfold routes.routeHandler.
  destruct (String.eqb (http.Path r) "/");
    [| destruct (String.eqb (http.Path r) "/health")];
    split; reflexivity.
Qed.

Lemma encode_map_NotFound (path method : json) :
  handlers.encode_map (<["path" := path]> (<["method" := method]> ∅))
  = JObj [("method", method); ("path", path)].
Proof. vm_compute. reflexivity. Qed.

(** X21. The 404 response names the path and the method of the request, both
    as the encoder writes them. *)
Theorem NotFound_echo (r : http.Request) (x : http.exchange) :
  http.body (http.rw (handlers.NotFound r x)) =
    http.body (http.rw x) ++
    [JObj [ ("status", JStr "error");
            ("message", JStr "The requested resource was not found");
            ("data",
             JObj [ ("method", JStr (utf8.coerce (http.Method r)));
                    ("path", JStr (utf8.coerce (http.Path r))) ]) ]].
Proof.
  unfold handlers.NotFound, http.on_rw, handlers.writeJSONResponse,
    http.Write, http.WriteHeader, http.Header_Set.
  cbn [http.rw http.status http.sent http.headers http.body].
  unfold handlers.encode.
  cbn [handlers.Status handlers.Message handlers.Data].
  rewrite encode_map_NotFound.
  change (utf8.coerce "error") with "error".
  change (String.eqb "The requested resource was not found" "") with false.
  change (utf8.coerce "The requested resource was not found")
    with "The requested resource was not found".
  cbn iota.
  destruct (http.status (http.rw x)); reflexivity.
Qed.

(** X6. The Port of the environment configuration is the default 8080 or
    the value of a PORT that is a decimal literal within [int]; and a
    PORT written as [%d] prints an [int] is read as that number. *)
Theorem LoadEnvConfig_Port (vars : gmap string string) :
  exists cfg : Config,
    LoadEnvConfig (EnvVars vars) = (Some cfg, None) /\
    (Port (Server cfg) = 8080 \/
     exists s : string,
       vars !! "PORT" = Some s /\ strconv.decimal s = true /\
       strconv.Atoi s = Some (Port (Server cfg)) /\
       int_min <= Port (Server cfg) <= int_max) /\
    (forall z : Z,
        in_int z = true -> vars !! "PORT" = Some (fmt.d z) ->
        Port (Server cfg) = z).
Proof.
  unfold LoadEnvConfig. cbn [godotenv.Read].
  eexists. split; [reflexivity |].
  assert (Hport : forall c : Config,
    Port (Server
      (match present vars "ENABLE_LOGGING" with
       | Some loggingStr =>
           match strconv.ParseBool loggingStr with
           | Some logging => set_EnableLogging logging c
           | None => c
           end
       | None => c
       end)) = Port (Server c)).
  { intros c. destruct (present vars "ENABLE_LOGGING") as [l |];
      [destruct (strconv.ParseBool l) |]; reflexivity. }
  assert (Hport' : forall c : Config,
    Port (Server
      (match present vars "ALLOWED_ORIGINS" with
       | Some originsStr =>
           set_AllowedOrigins
             (SliceOf (strings.TrimSpace <$> strings.Split_comma originsStr))
             c
       | None => c
       end)) = Port (Server c)).
  { intros c. destruct (present vars "ALLOWED_ORIGINS"); reflexivity. }
  rewrite Hport, Hport'. split.
  - unfold present. destruct (vars !! "PORT") as [s |] eqn:Es;
      [| now left].
    destruct (String.eqb s ""); [now left |].
    destruct (strconv.Atoi s) as [p |] eqn:Ea; [| now left].
    right. exists s. cbn [set_Port Server Port].
    split; [reflexivity |].
    split; [now apply Atoi_accepts_only_decimal in Ea |].
    split; [exact Ea | now apply Atoi_in_int in Ea].
  - intros z Hz Hs. rewrite (present_lookup _ _ _ Hs).
    pose proof (Atoi_fmt_d z Hz) as Ha.
    destruct (String.eqb_spec (fmt.d z) "") as [E | _].
    + rewrite E in Ha. discriminate.
    + now rewrite Ha.
Qed.

Lemma LoadEnvConfig_Port_witness :
  exists cfg : Config,
    LoadEnvConfig (EnvVars {[ "PORT" := "3000" ]}) = (Some cfg, None) /\
    Port (Server cfg) = 3000.
Proof.
  destruct (LoadEnvConfig_Port {[ "PORT" := "3000" ]})
    as (cfg & Hload & _ & Hz).
  exists cfg. split; [exact Hload |].
  apply (Hz 3000); reflexivity.
Defined.

(** ** The scenarios of the test suite, evaluated *)

Example Atoi_decimal : strconv.Atoi "3000" = Some 3000.
Proof. reflexivity. Qed.

Example Atoi_signed : strconv.Atoi "-12" = Some (-12).
Proof. reflexivity. Qed.

Example Atoi_not_a_number : strconv.Atoi "not_a_number" = None.
Proof. reflexivity. Qed.

Example Atoi_above_int : strconv.Atoi "9223372036854775808" = None.
Proof. reflexivity. Qed.

Example Atoi_least_int :
  strconv.Atoi "-9223372036854775808" = Some int_min.
Proof. reflexivity. Qed.

Example ParseBool_invalid : strconv.ParseBool "invalid_bool" = None.
Proof. reflexivity. Qed.

Example Split_comma_pieces :
  strings.Split_comma "a, b,,c" = ["a"; " b"; ""; "c"].
Proof. reflexivity. Qed.

Example TrimSpace_ascii :
  strings.TrimSpace "  http://b.com 	" = "http://b.com".
Proof. vm_compute. reflexivity. Qed.

Example TrimSpace_unicode :
  strings.TrimSpace "  a b　 " = "a b".
Proof. vm_compute. reflexivity. Qed.

Example LoadEnvConfig_all_keys :
  LoadEnvConfig
    (EnvVars (<["PORT" := "3000"]>
             (<["ALLOWED_ORIGINS" := "http://a.com, http://b.com"]>
             (<["ENABLE_LOGGING" := "false"]> ∅))))
  = (Some (mkConfig {|
       Port := 3000;
       ShutdownTimeout := 30;
       ReadTimeout := 10;
       WriteTimeout := 10;
       AllowedOrigins := SliceOf ["http://a.com"; "http://b.com"];
       AllowedMethods := SliceOf ["GET"; "POST"; "PUT"; "DELETE"; "OPTIONS"];
       EnableLogging := false |}), None).
Proof. vm_compute. reflexivity. Qed.

Example LoadEnvConfig_invalid_values :
  LoadEnvConfig
    (EnvVars (<["PORT" := "invalid_port"]>
             (<["ENABLE_LOGGING" := "invalid_bool"]> ∅)))
  = (Some GetDefaultConfig, None).
Proof. vm_compute. reflexivity. Qed.

Example LoadConfig_older_format :
  LoadConfig
    {[ "config.json" :=
         Readable (Document (JObj [
           ("server", JObj [
              ("port", JInt 3000);
              ("shutdown_timeout_seconds", JInt 45);
              ("read_timeout_seconds", JInt 15);
              ("write_timeout_seconds", JInt 15);
              ("allowed_origins", JArr [JStr "http://localhost:3000"]);
              ("allowed_methods", JArr [JStr "GET"; JStr "POST"]);
              ("enable_logging", JBool false) ]) ])) ]}
    "config.json"
  = (Some (mkConfig {|
       Port := 3000;
       ShutdownTimeout := 0;
       ReadTimeout := 0;
       WriteTimeout := 0;
       AllowedOrigins := SliceOf ["http://localhost:3000"];
       AllowedMethods := SliceNil;
       EnableLogging := false |}), None).
Proof. vm_compute. reflexivity. Qed.

Example LoadConfig_missing :
  LoadConfig ∅ "non_existent_file.json"
  = (None, Some (Err "config file does not exist: non_existent_file.json")).
Proof. reflexivity. Qed.

Example LoadConfig_wrong_type :
  fst (LoadConfig
         {[ "c.json" :=
              Readable (Document (JObj [
                ("server", JObj [("port", JStr "invalid_port")]) ])) ]}
         "c.json") = None.
Proof. vm_compute. reflexivity. Qed.

(** A base that enables logging loses the flag to an override that was
    never given one. *)
Example MergeConfigs_logging_lost :
  EnableLogging
    (Server (MergeConfigs (Some GetDefaultConfig) (Some zero_Config)))
  = false.
Proof. reflexivity. Qed.

Example MergeConfigs_nil_override (base : Config) :
  MergeConfigs (Some base) None = base.
Proof. reflexivity. Qed.

Example MergeConfigs_nil_base (override : Config) :
  MergeConfigs None (Some override)
  = MergeConfigs (Some GetDefaultConfig) (Some override).
Proof. reflexivity. Qed.

Example main_clean_shutdown :
  main (mkWorld "" ∅ EnvAbsent (Signalled SIGINT) Drained)
  = (0, [ Printf "Received signal interrupt, initiating graceful shutdown...";
          Printf "Server shutdown completed successfully" ]).
Proof. vm_compute. reflexivity. Qed.

Example main_bind_failure :
  fst (main (mkWorld "" ∅ EnvAbsent
               (ServerErr (Err "listen tcp :8080: bind: address already in use"))
               Drained)) = 1.
Proof. vm_compute. reflexivity. Qed.
